(** * Aloha Editor, [src/ranges.js]: ranges from pixel positions

    A shallow embedding of the module [ranges.js] and the properties its
    specification states about it.

    The module is a thin layer over the browser: it calls the DOM Range
    interface, the hit-testing primitives of a document, the layout
    ([getClientRects]) and the sibling modules [dom] and [arrays].  None of
    these is part of [ranges.js], so the embedding takes them as data:

    - [Host]: the document tree and its layout, as the properties that
      [ranges.js] reads from node objects;
    - [Document]: the [doc] argument, with its optional hit-testing methods;
    - [Dom.Api], [Arrays.Api]: the functions imported by [define(['dom',
      'arrays'], ...)];
    - the Range interface ([setStart], [setEnd], ...) follows the algorithms
      of the DOM Standard over a [Host].

    Numbers are integers ([Z]): pixel coordinates as the JSDoc of
    [pointIsInOrAboveRect] types them ([{int} x]), offsets as the DOM has
    them.  A call either returns, throws, or (for the two recursive scans)
    exceeds the call depth the caller allowed. *)

From Stdlib Require Import ZArith List String Bool Lia.
Import ListNotations.
Open Scope Z_scope.

(** ** Values *)

(** A node object, compared by identity ([===]). *)
Definition Node := nat.

(** The four boundary fields of a DOM Range. *)
Record Range := mkRange {
  startContainer : Node;
  startOffset : Z;
  endContainer : Node;
  endOffset : Z
}.

(** A rectangle of [range.getClientRects()]. *)
Module Rect.
Record t := mk { left : Z; top : Z; right : Z; bottom : Z }.
End Rect.

(** The object literal [{ node : ..., index : ... }] of the fallback scan;
    [node] may be [null] (a [parentNode] that does not exist). *)
Record Position := mkPosition {
  node : option Node;
  index : Z
}.

(** The result of [doc.caretPositionFromPoint]. *)
Record CaretPosition := mkCaretPosition {
  offsetNode : Node;
  offset : Z
}.

(** ** Completions *)

(** What a JavaScript [throw] carries here: the string thrown by [fromPoint],
    a [TypeError] (property access on [null] or [undefined]), or a
    [DOMException] raised by the Range interface. *)
Inductive Thrown :=
| ThrownString (message : string)
| TypeError
| DOMException (name : string).

(** The outcome of a call.  [OutOfFuel] is the model's bound on the depth of
    recursive calls being reached; it is not a JavaScript outcome. *)
Inductive Outcome (A : Type) :=
| Return (a : A)
| Throw (e : Thrown)
| OutOfFuel.
Arguments Return {A} a.
Arguments Throw {A} e.
Arguments OutOfFuel {A}.

Definition bind {A B} (c : Outcome A) (k : A -> Outcome B) : Outcome B :=
  match c with
  | Return a => k a
  | Throw e => Throw e
  | OutOfFuel => OutOfFuel
  end.

Notation "x <- c ;; k" := (bind c (fun x => k))
  (at level 61, c at next level, right associativity).

(** ** The host *)

(** The document tree and its layout, as [ranges.js] and the Range interface
    read them. *)
Record Host := mkHost {
  nodeType : Node -> Z;
  parentNode : Node -> option Node;
  firstChild : Node -> option Node;
  nextSibling : Node -> option Node;
  ownerDocument : Node -> option Node;
  (** [node.length]: the number of code units of a text node; for the Range
      interface, the DOM's length of any node (its number of children when it
      is not character data). *)
  nodeLength : Node -> Z;
  (** the DOM's index of a node among its siblings *)
  childIndex : Node -> Z;
  (** the root of the tree a node is in *)
  root : Node -> Node;
  (** the position of the boundary point [(n, o)] relative to [(n', o')]:
      [Lt] before, [Eq] equal, [Gt] after *)
  position : Node -> Z -> Node -> Z -> comparison;
  (** [range.commonAncestorContainer] *)
  commonAncestorContainer : Range -> Node;
  (** [range.getClientRects()] *)
  getClientRects : Range -> list Rect.t;
  (** [element.scrollLeft] *)
  scrollLeft : Node -> Z;
  (** [node.offsetWidth]; [None] is [undefined] (not an HTML element) *)
  offsetWidth : Node -> option Z
}.

(** The [doc] argument.  A hit-testing method that the browser lacks is
    [None]; one that is there may return [null]. *)
Record Document := mkDocument {
  documentNode : Node;
  caretRangeFromPoint : option (Z -> Z -> option Range);
  caretPositionFromPoint : option (Z -> Z -> option CaretPosition);
  elementFromPoint : option (Z -> Z -> option Node);
  body : option Node
}.

(** The functions of the module [dom] that [ranges.js] calls. *)
Module Dom.
Record Api := mk {
  isTextNode : Node -> bool;
  nodeIndex : Node -> Z;
  isEditable : Node -> bool;
  isEditableNode : Node -> bool;
  editingHost : Node -> Node;
  upWhile : Node -> (Node -> bool) -> Node;
  (** [Dom.offset(node)]: the pair [(left, top)] *)
  offset : Node -> Z * Z;
  (** [Dom.Nodes.DOCUMENT] *)
  Nodes_DOCUMENT : Z
}.
End Dom.

(** The function of the module [arrays] that [ranges.js] calls;
    [None] is [undefined]. *)
Module Arrays.
Record Api := mk {
  last : list Rect.t -> option Rect.t
}.
End Arrays.

(** ** The Range interface (DOM Standard, "set the start or end") *)

(** Conversion of a number to WebIDL's [unsigned long]. *)
Definition toUint32 (z : Z) : Z := z mod 2 ^ 32.

Definition DOCUMENT_TYPE_NODE : Z := 10.

Definition isAfter (c : comparison) : bool :=
  match c with Gt => true | _ => false end.

Definition isBefore (c : comparison) : bool :=
  match c with Lt => true | _ => false end.

Section RangeInterface.
Variable h : Host.

(** [document.createRange()]: both boundary points at [(document, 0)]. *)
Definition createRange (d : Node) : Range := mkRange d 0 d 0.

(** The validation both setters start with: a doctype is no container, and
    the offset may not exceed the node's length. *)
Definition checkBoundary (n : Node) (o : Z) : Outcome Z :=
  let o := toUint32 o in
  if nodeType h n =? DOCUMENT_TYPE_NODE
  then Throw (DOMException "InvalidNodeTypeError")
  else if nodeLength h n <? o
  then Throw (DOMException "IndexSizeError")
  else Return o.

(** [range.setStart(n, o)]: the end follows when the new start is in
    another tree or after it. *)
Definition setStart (r : Range) (n : Node) (o : Z) : Outcome Range :=
  o <- checkBoundary n o ;;
  if negb (root h (startContainer r) =? root h n)%nat
     || isAfter (position h n o (endContainer r) (endOffset r))
  then Return (mkRange n o n o)
  else Return (mkRange n o (endContainer r) (endOffset r)).

(** [range.setEnd(n, o)]: the start follows when the new end is in another
    tree or before it. *)
Definition setEnd (r : Range) (n : Node) (o : Z) : Outcome Range :=
  o <- checkBoundary n o ;;
  if negb (root h (startContainer r) =? root h n)%nat
     || isBefore (position h n o (startContainer r) (startOffset r))
  then Return (mkRange n o n o)
  else Return (mkRange (startContainer r) (startOffset r) n o).

(** [range.setEndAfter(n)]: the end goes to [(parent, index of n + 1)]. *)
Definition setEndAfter (r : Range) (n : Node) : Outcome Range :=
  match parentNode h n with
  | None => Throw (DOMException "InvalidNodeTypeError")
  | Some parent => setEnd r parent (childIndex h n + 1)
  end.

(** [range.selectNodeContents(n)] *)
Definition selectNodeContents (r : Range) (n : Node) : Outcome Range :=
  if nodeType h n =? DOCUMENT_TYPE_NODE
  then Throw (DOMException "InvalidNodeTypeError")
  else Return (mkRange n 0 n (nodeLength h n)).

(** [range.collapse(toStart)] *)
Definition collapse (r : Range) (toStart : bool) : Range :=
  if toStart
  then mkRange (startContainer r) (startOffset r) (startContainer r) (startOffset r)
  else mkRange (endContainer r) (endOffset r) (endContainer r) (endOffset r).
End RangeInterface.

(** ** The module [ranges.js] *)

(** [so || 0] on an argument that may be missing. *)
Definition orZero (v : option Z) : Z :=
  match v with
  | Some z => z
  | None => 0
  end.

(** [pointIsInOrAboveRect(x, y, rect)] *)
Definition pointIsInOrAboveRect (x y : Z) (rect : Rect.t) : bool :=
  (y <? Rect.bottom rect) && (x >=? Rect.left rect) && (x <=? Rect.right rect).

(** The condition [rect && pointIsInOrAboveRect(x, y, rect)] of both scans:
    the rectangle when it is there and the point is in or above it. *)
Definition hitRect (x y : Z) (rect : option Rect.t) : option Rect.t :=
  match rect with
  | Some rect => if pointIsInOrAboveRect x y rect then Some rect else None
  | None => None
  end.

(** [equals(a, b)] *)
Definition equals (a b : Range) : bool :=
  (startContainer a =? startContainer b)%nat
  && (startOffset a =? startOffset b)
  && (endContainer a =? endContainer b)%nat
  && (endOffset a =? endOffset b).

Section Ranges.
Variable h : Host.
Variable D : Dom.Api.
Variable A : Arrays.Api.

(** [create(sc, so, ec, eo)].  [sc.ownerDocument] is [null] on a document
    node, and calling [createRange] on it is a [TypeError]. *)
Definition create (sc : Node) (so : option Z) (ec : option Node) (eo : option Z)
  : Outcome Range :=
  match ownerDocument h sc with
  | None => Throw TypeError
  | Some d =>
      let range := createRange d in
      range <- setStart h range sc (orZero so) ;;
      match ec with
      | Some ec => setEnd h range ec (orZero eo)
      | None => setEnd h range sc (orZero so)
      end
  end.

(** [stepTextNode(node, range, offset, x, y)].  The probe [range] is
    mutated by [setEnd]; its last state is returned with the position.
    [fuel] bounds the depth of the nested calls: each call of [stepTextNode]
    or [findOffset] takes one unit. *)
Fixpoint stepTextNode (fuel : nat) (node : Node) (range : Range) (offset x y : Z)
  : Outcome (Position * Range) :=
  match fuel with
  | O => OutOfFuel
  | S fuel =>
      range <- setEnd h range node offset ;;
      let rect := Arrays.last A (getClientRects h range) in
      match hitRect x y rect with
      | Some rect =>
          let offset :=
            if Rect.right rect - x >? x - Rect.left rect
            then offset - 1 else offset in
          Return (mkPosition (Some node) offset, range)
      | None =>
          if offset <? nodeLength h node
          then stepTextNode fuel node range (offset + 1) x y
          else Return (mkPosition (Some node) offset, range)
      end
  end.

(** [findOffset(node, range, x, y)] *)
Fixpoint findOffset (fuel : nat) (node : Node) (range : Range) (x y : Z)
  : Outcome (Position * Range) :=
  match fuel with
  | O => OutOfFuel
  | S fuel =>
      if Dom.isTextNode D node
      then stepTextNode fuel node range 0 x y
      else
        range <- setEndAfter h range node ;;
        let rect := Arrays.last A (getClientRects h range) in
        match hitRect x y rect with
        | Some _ =>
            Return (mkPosition (parentNode h node) (Dom.nodeIndex D node), range)
        | None =>
            match nextSibling h node with
            | Some sibling => findOffset fuel sibling range x y
            | None =>
                Return (mkPosition (parentNode h node) (Dom.nodeIndex D node), range)
            end
        end
  end.

(** [fromPointIE(x, y, doc)].  [el.firstChild] on a [null] element and
    [create] on a [null] node are [TypeError]s. *)
Definition fromPointIE (fuel : nat) (x y : Z) (doc : Document) : Outcome Range :=
  match elementFromPoint doc with
  | None => Throw TypeError
  | Some elementFromPoint =>
      match elementFromPoint x y with
      | None => Throw TypeError
      | Some el =>
          let range := createRange (documentNode doc) in
          let offset := mkPosition (firstChild h el) (-1) in
          range <- selectNodeContents h range el ;;
          let range := collapse range true in
          offset <-
            match node offset with
            | None => Return (mkPosition (parentNode h el) (Dom.nodeIndex D el))
            | Some first =>
                found <- findOffset fuel first range x y ;;
                Return (fst found)
            end ;;
          match node offset with
          | None => Throw TypeError
          | Some sc => create sc (Some (index offset)) None None
          end
      end
  end.

(** [fromPoint(x, y, doc)].  [pos.offsetNode] on a [null] caret position is
    a [TypeError]. *)
Definition fromPoint (fuel : nat) (x y : Z) (doc : Document)
  : Outcome (option Range) :=
  if (x <? 0) || (y <? 0) then Return None
  else
    match caretRangeFromPoint doc with
    | Some caretRangeFromPoint => Return (caretRangeFromPoint x y)
    | None =>
        match caretPositionFromPoint doc with
        | Some caretPositionFromPoint =>
            match caretPositionFromPoint x y with
            | None => Throw TypeError
            | Some pos =>
                range <- create (offsetNode pos) (Some (offset pos)) None None ;;
                Return (Some range)
            end
        | None =>
            match elementFromPoint doc with
            | Some _ =>
                range <- fromPointIE fuel x y doc ;;
                Return (Some range)
            | None =>
                Throw (ThrownString "fromPoint() unimplemented for this browser")
            end
        end
    end.

(** [parentBlock(node)] *)
Definition parentBlock (n : Node) : option Node :=
  let block := if Dom.isEditable D n then Dom.editingHost D n else n in
  let parent :=
    Dom.upWhile D block
      (fun node =>
         match parentNode h node with
         | Some p => negb (Dom.isEditable D p)
         | None => false
         end) in
  if Dom.Nodes_DOCUMENT D =? nodeType h parent then None else Some parent.

(** [fromPosition(x, y, doc)].  [body.scrollLeft] on a document without a
    body is a [TypeError]; an [undefined] [offsetWidth] makes [blockX] a
    [NaN], which no [pointX] exceeds.  The two sums are exact here, where
    JavaScript rounds them: nothing below relies on simplifying them. *)
Definition fromPosition (fuel : nat) (x y : Z) (doc : Document)
  : Outcome (option Range) :=
  range <- fromPoint fuel x y doc ;;
  match range with
  | None => Return None
  | Some range =>
      if Dom.isEditableNode D (commonAncestorContainer h range)
      then Return (Some range)
      else
        match parentBlock (commonAncestorContainer h range) with
        | None => Return None
        | Some block =>
            match parentNode h block with
            | None => Return None
            | Some parent =>
                match body doc with
                | None => Throw TypeError
                | Some body =>
                    let offsets := Dom.offset D block in
                    let offset := Dom.nodeIndex D block in
                    let pointX := x + scrollLeft h body in
                    let offset :=
                      match offsetWidth h block with
                      | Some offsetWidth =>
                          let blockX := fst offsets + scrollLeft h body + offsetWidth in
                          if pointX >? blockX then offset + 1 else offset
                      | None => offset
                      end in
                    range <- create parent (Some offset) None None ;;
                    Return (Some range)
                end
            end
        end
  end.
End Ranges.

(** ** A sample page

    The concrete host the examples below run on:
<<
    #document                                  0
      <body contenteditable="true">            1
        <p>                                    2
          abcdefghij                           3   (text, 10 characters)
          <span contenteditable="false"/>      4
        </p>
        <div/>                                 5
        <p> <img/> <img/> </p>                 6, 7, 8
      </body>
>>
    Characters are 10 pixels wide and lines 20 to 30 pixels high: the first
    paragraph is the line [0 <= y < 20] with the text on [0 <= x <= 100] and
    the span on [100 <= x <= 120]; the [div] is [20 <= y < 30]; the images,
    50 pixels wide each, are the line [30 <= y < 60]. *)
Module Page.
Definition children (n : Node) : list Node :=
  match n with
  | 0 => [1] | 1 => [2; 5; 6] | 2 => [3; 4] | 6 => [7; 8] | _ => []
  end%nat.

Definition textLength (n : Node) : option Z :=
  match n with 3%nat => Some 10 | _ => None end.

Definition allNodes : list Node := seq 0 9.

Definition typeOf (n : Node) : Z :=
  match n with 0%nat => 9 | 3%nat => 3 | _ => 1 end.

Definition parentOf (n : Node) : option Node :=
  find (fun p => existsb (Nat.eqb n) (children p)) allNodes.

Fixpoint following (n : Node) (siblings : list Node) : option Node :=
  match siblings with
  | a :: rest => if (a =? n)%nat then hd_error rest else following n rest
  | [] => None
  end.

Fixpoint indexIn (n : Node) (siblings : list Node) : Z :=
  match siblings with
  | a :: rest => if (a =? n)%nat then 0 else 1 + indexIn n rest
  | [] => 0
  end.

Definition siblingAfter (n : Node) : option Node :=
  match parentOf n with
  | Some p => following n (children p)
  | None => None
  end.

Definition indexOf (n : Node) : Z :=
  match parentOf n with
  | Some p => indexIn n (children p)
  | None => 0
  end.

Definition lengthOf (n : Node) : Z :=
  match textLength n with
  | Some l => l
  | None => Z.of_nat (List.length (children n))
  end.

(** The boundary points in and around the contents of [n], in tree order. *)
Fixpoint boundaryPoints (depth : nat) (n : Node) : list (Node * Z) :=
  match depth with
  | O => []
  | S depth =>
      match textLength n with
      | Some l => map (fun o => (n, Z.of_nat o)) (seq 0 (S (Z.to_nat l)))
      | None =>
          (n, 0) ::
          (fix inside (cs : list Node) (i : Z) : list (Node * Z) :=
             match cs with
             | [] => []
             | c :: cs => boundaryPoints depth c ++ (n, i) :: inside cs (i + 1)
             end) (children n) 1
      end
  end.

Fixpoint rankIn (n : Node) (o : Z) (bps : list (Node * Z)) : nat :=
  match bps with
  | (n', o') :: rest =>
      if (n' =? n)%nat && (o' =? o) then O else S (rankIn n o rest)
  | [] => O
  end.

Definition rank (n : Node) (o : Z) : nat := rankIn n o (boundaryPoints 5 0%nat).

Definition order (n : Node) (o : Z) (n' : Node) (o' : Z) : comparison :=
  Nat.compare (rank n o) (rank n' o').

(** Where the caret of a boundary point is drawn: its line [(top, bottom)]
    and its [x]. *)
Definition line (n : Node) : option (Z * Z) :=
  match n with
  | 2%nat | 3%nat | 4%nat => Some (0, 20)
  | 6%nat | 7%nat | 8%nat => Some (30, 60)
  | _ => None
  end.

Definition caretX (n : Node) (o : Z) : Z :=
  match n with
  | 2%nat => if o <=? 0 then 0 else if o <=? 1 then 100 else 120
  | 3%nat => 10 * o
  | 4%nat => 100
  | 6%nat => 50 * o
  | 7%nat => 0
  | 8%nat => 50
  | _ => 0
  end.

(** One rectangle for a range that selects something on one line, none
    for a range that selects nothing. *)
Definition rects (r : Range) : list Rect.t :=
  match line (startContainer r), line (endContainer r) with
  | Some (t, b), Some (t', _) =>
      let l := caretX (startContainer r) (startOffset r) in
      let l' := caretX (endContainer r) (endOffset r) in
      if (t =? t') && (l <? l') then [Rect.mk l t l' b] else []
  | _, _ => []
  end.

Definition host : Host :=
  {| nodeType := typeOf;
     parentNode := parentOf;
     firstChild := fun n => hd_error (children n);
     nextSibling := siblingAfter;
     ownerDocument := fun n => match n with O => None | _ => Some 0%nat end;
     nodeLength := lengthOf;
     childIndex := indexOf;
     root := fun _ => 0%nat;
     position := order;
     commonAncestorContainer := fun r =>
       if (startContainer r =? endContainer r)%nat
       then startContainer r else 1%nat;
     getClientRects := rects;
     scrollLeft := fun _ => 0;
     offsetWidth := fun n =>
       match n with
       | 0%nat | 3%nat => None
       | 4%nat => Some 20
       | 7%nat | 8%nat => Some 50
       | _ => Some 200
       end |}.

Fixpoint climb (depth : nat) (n : Node) (pred : Node -> bool) : Node :=
  match depth with
  | O => n
  | S depth =>
      if pred n
      then match parentOf n with
           | Some p => climb depth p pred
           | None => n
           end
      else n
  end.

Definition editable (n : Node) : bool :=
  match n with 0 | 1 | 4 => false | _ => true end%nat.

Definition dom : Dom.Api :=
  {| Dom.isTextNode := fun n => typeOf n =? 3;
     Dom.nodeIndex := indexOf;
     Dom.isEditable := editable;
     Dom.isEditableNode := fun n => editable n || (n =? 1)%nat;
     Dom.editingHost := fun _ => 1%nat;
     Dom.upWhile := climb 5;
     Dom.offset := fun n => (match n with 4%nat => 100 | _ => 0 end, 0);
     Dom.Nodes_DOCUMENT := 9 |}.

Definition arrays : Arrays.Api :=
  {| Arrays.last := fun rects => List.last (map Some rects) None |}.

(** A browser with [caretRangeFromPoint]: on the first line the caret goes
    to the nearest character boundary, or into the span right of the text. *)
Definition webkit : Document :=
  {| documentNode := 0%nat;
     caretRangeFromPoint := Some (fun x y =>
       if y <? 20
       then if x <? 100
            then Some (mkRange 3%nat ((x + 5) / 10) 3%nat ((x + 5) / 10))
            else Some (mkRange 4%nat 0 4%nat 0)
       else None);
     caretPositionFromPoint := None;
     elementFromPoint := None;
     body := Some 1%nat |}.

(** A browser with [caretPositionFromPoint] only. *)
Definition gecko : Document :=
  {| documentNode := 0%nat;
     caretRangeFromPoint := None;
     caretPositionFromPoint := Some (fun x y =>
       if y <? 20 then Some (mkCaretPosition 3%nat ((x + 5) / 10)) else None);
     elementFromPoint := None;
     body := Some 1%nat |}.

(** A browser with [elementFromPoint] only: the fallback scan runs. *)
Definition legacy : Document :=
  {| documentNode := 0%nat;
     caretRangeFromPoint := None;
     caretPositionFromPoint := None;
     elementFromPoint := Some (fun x y =>
       if y <? 20 then Some 2%nat
       else if y <? 30 then Some 5%nat
       else if y <? 60 then Some 6%nat
       else Some 1%nat);
     body := Some 1%nat |}.

(** A browser with none of the three primitives. *)
Definition bare : Document :=
  {| documentNode := 0%nat;
     caretRangeFromPoint := None;
     caretPositionFromPoint := None;
     elementFromPoint := None;
     body := Some 1%nat |}.
End Page.


(** ** Notions the properties are stated with *)

(** A collapsed range: its two boundary points are the same. *)
Definition collapsed (r : Range) : Prop :=
  startContainer r = endContainer r /\ startOffset r = endOffset r.

(** The probe range [r] with its end boundary at [(n, o)]. *)
Definition withEnd (r : Range) (n : Node) (o : Z) : Range :=
  mkRange (startContainer r) (startOffset r) n o.

(** [map] on outcomes, to speak of the position a scan returns. *)
Definition onReturn {A B} (f : A -> B) (c : Outcome A) : Outcome B :=
  x <- c ;; Return (f x).

Section Scan.
Variable h : Host.
Variable D : Dom.Api.
Variable A : Arrays.Api.

(** The host takes [(n, o)] as the end of the probe range and leaves its
    start where it is: the offset is one of [n], and the point is in the
    tree of the start and not before it. *)
Definition probes (r : Range) (n : Node) (o : Z) : Prop :=
  setEnd h r n o = Return (withEnd r n o).

(** The rectangle compared at offset [k] of a text node: the last one of
    the probe range ending at [(n, k)]; and that rectangle when the point
    [(x, y)] is in or above it. *)
Definition textRect (r : Range) (n : Node) (k : Z) : option Rect.t :=
  Arrays.last A (getClientRects h (withEnd r n k)).

Definition textHit (x y : Z) (r : Range) (n : Node) (k : Z) : option Rect.t :=
  hitRect x y (textRect r n k).

(** The offset kept at a hit on offset [k]: [k], or [k - 1] when the point
    is strictly nearer the left edge of the rectangle than its right edge. *)
Definition nearerEdge (x : Z) (rect : Rect.t) (k : Z) : Z :=
  if Rect.right rect - x >? x - Rect.left rect then k - 1 else k.

(** The probe range ending after the sibling [m], and the rectangle
    compared there when the point is in or above it. *)
Definition endAfter (r : Range) (m : Node) : Range :=
  match parentNode h m with
  | Some p => withEnd r p (childIndex h m + 1)
  | None => r
  end.

Definition probesAfter (r : Range) (m : Node) : Prop :=
  setEndAfter h r m = Return (endAfter r m).

Definition siblingHit (x y : Z) (r : Range) (m : Node) : option Rect.t :=
  hitRect x y (Arrays.last A (getClientRects h (endAfter r m))).

(** The [i]-th sibling after [n] ([n] itself for [i = 0]), following
    [nextSibling]. *)
Fixpoint siblingAt (i : nat) (n : Node) : option Node :=
  match i with
  | O => Some n
  | S i =>
      match nextSibling h n with
      | Some s => siblingAt i s
      | None => None
      end
  end.

(** The position [findOffset] returns for the sibling [m]. *)
Definition positionOf (m : Node) : Position :=
  mkPosition (parentNode h m) (Dom.nodeIndex D m).

(** A call depth that suffices for [findOffset] on a node with fewer than
    [n] siblings after it: one call per sibling up to the first text node,
    and one per offset of that text node. *)
Fixpoint callDepth (n : nat) (m : Node) : nat :=
  match n with
  | O => 1
  | S n =>
      if Dom.isTextNode D m
      then S (S (Z.to_nat (nodeLength h m)))
      else match nextSibling h m with
           | Some s => S (callDepth n s)
           | None => 1
           end
  end.

End Scan.

(** Of the character boundaries [k - 1], drawn at [xl], and [k], drawn at
    [xr], the one closer to [x] ([k] when they are equally close). *)
Definition closerBoundary (xl xr x k : Z) : Z :=
  if Z.abs (x - xl) <? Z.abs (xr - x) then k - 1 else k.

(** The host's contract for [caretRangeFromPoint] (CSSOM View): the range it
    returns is collapsed. *)
Definition caretRangesCollapsed (doc : Document) : Prop :=
  forall f x y r,
    caretRangeFromPoint doc = Some f -> f x y = Some r -> collapsed r.

(** *** Notions of the further properties *)

(** The predicate [parentBlock] hands to [Dom.upWhile]: the node has a
    parent, and that parent is not editable. *)
Definition parentNotEditable (h : Host) (D : Dom.Api) (node : Node) : bool :=
  match parentNode h node with
  | Some p => negb (Dom.isEditable D p)
  | None => false
  end.

(** What [parentBlock] relies on [Dom.upWhile] for: the node it returns is
    one at which that predicate no longer holds. *)
Definition upWhileStops (h : Host) (D : Dom.Api) : Prop :=
  forall n,
    parentNotEditable h D (Dom.upWhile D n (parentNotEditable h D)) = false.

(** Two more browsers for the sample page. *)
Module Variants.
(** A layout that reports, for a range that selects nothing on a line, the
    box of the caret, one pixel wide. *)
Definition caretBoxRects (r : Range) : list Rect.t :=
  match Page.line (startContainer r), Page.line (endContainer r) with
  | Some (t, b), Some (t', _) =>
      let l := Page.caretX (startContainer r) (startOffset r) in
      let l' := Page.caretX (endContainer r) (endOffset r) in
      if (t =? t') && (l <=? l') then [Rect.mk l t (Z.max l' (l + 1)) b] else []
  | _, _ => []
  end.

Definition caretBoxes : Host :=
  {| nodeType := nodeType Page.host;
     parentNode := parentNode Page.host;
     firstChild := firstChild Page.host;
     nextSibling := nextSibling Page.host;
     ownerDocument := ownerDocument Page.host;
     nodeLength := nodeLength Page.host;
     childIndex := childIndex Page.host;
     root := root Page.host;
     position := position Page.host;
     commonAncestorContainer := commonAncestorContainer Page.host;
     getClientRects := caretBoxRects;
     scrollLeft := scrollLeft Page.host;
     offsetWidth := offsetWidth Page.host |}.

(** A browser with [elementFromPoint] only, which finds no element below
    the last line of the page. *)
Definition clipped : Document :=
  {| documentNode := 0%nat;
     caretRangeFromPoint := None;
     caretPositionFromPoint := None;
     elementFromPoint := Some (fun x y =>
       if y <? 20 then Some 2%nat
       else if y <? 30 then Some 5%nat
       else if y <? 60 then Some 6%nat
       else None);
     body := Some 1%nat |}.
End Variants.

(** * Properties *)

(** ** The embedding on the sample page *)

(** With [caretRangeFromPoint] the host places the caret; a click at
    [x = 32] in the text is nearest to the boundary after [abc]. *)
Example webkit_click_in_text :
  fromPosition Page.host Page.dom Page.arrays 20 32 5 Page.webkit
  = Return (Some (mkRange 3%nat 3 3%nat 3)).
Proof. reflexivity. Qed.

(** The same click where [caretPositionFromPoint] is all there is. *)
Example gecko_click_in_text :
  fromPosition Page.host Page.dom Page.arrays 20 32 5 Page.gecko
  = Return (Some (mkRange 3%nat 3 3%nat 3)).
Proof. reflexivity. Qed.

(** The same click through the fallback scan: the probe range first
    reaches [x = 32] with four characters in it. *)
Example legacy_click_in_text :
  fromPosition Page.host Page.dom Page.arrays 20 32 5 Page.legacy
  = Return (Some (mkRange 3%nat 4 3%nat 4)).
Proof. reflexivity. Qed.

(** A click on the span that is not editable: the position is beside the
    span in its parent, before it or after it by the side of its right
    edge the click is on. *)
Example webkit_click_on_span :
  fromPosition Page.host Page.dom Page.arrays 20 110 5 Page.webkit
  = Return (Some (mkRange 2%nat 1 2%nat 1))
  /\ fromPosition Page.host Page.dom Page.arrays 20 125 5 Page.webkit
     = Return (Some (mkRange 2%nat 2 2%nat 2)).
Proof. split; reflexivity. Qed.

(** A click on the second image through the fallback scan, and one on the
    empty [div]. *)
Example legacy_click_on_image :
  fromPosition Page.host Page.dom Page.arrays 20 60 40 Page.legacy
  = Return (Some (mkRange 6%nat 1 6%nat 1))
  /\ fromPosition Page.host Page.dom Page.arrays 20 60 25 Page.legacy
     = Return (Some (mkRange 1%nat 1 1%nat 1)).
Proof. split; reflexivity. Qed.

(** Where the host finds no caret, [fromPosition] returns [null]; where the
    call depth allowed is used up, the scan has no outcome yet. *)
Example webkit_click_below_text :
  fromPosition Page.host Page.dom Page.arrays 20 32 45 Page.webkit = Return None
  /\ fromPosition Page.host Page.dom Page.arrays 3 32 5 Page.legacy = OutOfFuel.
Proof. split; reflexivity. Qed.

(** [create] with both boundary points, in order and out of order: the
    host moves the start to an end that is before it. *)
Example create_both_ends :
  create Page.host 3%nat (Some 2) (Some 3%nat) (Some 7)
  = Return (mkRange 3%nat 2 3%nat 7)
  /\ create Page.host 3%nat (Some 7) (Some 3%nat) (Some 2)
     = Return (mkRange 3%nat 2 3%nat 2)
  /\ create Page.host 3%nat None (Some 6%nat) None
     = Return (mkRange 3%nat 0 6%nat 0).
Proof. repeat split; reflexivity. Qed.

(** ** The Range interface *)

Section RangeFacts.
Variable h : Host.

Lemma checkBoundary_Return n o o' :
  checkBoundary h n o = Return o' ->
  o' = toUint32 o /\ nodeType h n <> DOCUMENT_TYPE_NODE /\ o' <= nodeLength h n.
Proof.
  unfold checkBoundary.
  destruct (nodeType h n =? DOCUMENT_TYPE_NODE) eqn:Etype; [discriminate|].
  destruct (nodeLength h n <? toUint32 o) eqn:Elen; [discriminate|].
  intros [= <-]. repeat split; lia.
Qed.

Lemma checkBoundary_accepts n o :
  nodeType h n <> DOCUMENT_TYPE_NODE ->
  0 <= o <= nodeLength h n -> o < 2 ^ 32 ->
  checkBoundary h n o = Return o.
Proof.
  intros Htype Hlen Hword. unfold checkBoundary, toUint32.
  rewrite Z.mod_small by lia.
  destruct (nodeType h n =? DOCUMENT_TYPE_NODE) eqn:Etype; [lia|].
  destruct (nodeLength h n <? o) eqn:Elen; [lia|reflexivity].
Qed.

(** [setEnd] reads the start of the range only. *)
Lemma setEnd_withEnd r n' o' n o :
  setEnd h (withEnd r n' o') n o = setEnd h r n o.
Proof. reflexivity. Qed.

(** A boundary point the host accepts, in the tree of the start of the
    range and not before it, is a point the range can be extended to. *)
Lemma probes_intro r n o :
  nodeType h n <> DOCUMENT_TYPE_NODE ->
  0 <= o <= nodeLength h n -> o < 2 ^ 32 ->
  root h (startContainer r) = root h n ->
  position h n o (startContainer r) (startOffset r) <> Lt ->
  probes h r n o.
Proof.
  intros Htype Hlen Hword Hroot Hpos. unfold probes, setEnd.
  rewrite checkBoundary_accepts by assumption. cbn.
  rewrite Hroot, Nat.eqb_refl. cbn.
  destruct (position h n o (startContainer r) (startOffset r));
    try reflexivity; contradiction.
Qed.

Lemma setStart_Return r n o r' :
  setStart h r n o = Return r' ->
  startContainer r' = n /\ startOffset r' = toUint32 o /\
  nodeType h n <> DOCUMENT_TYPE_NODE /\ toUint32 o <= nodeLength h n.
Proof.
  unfold setStart. destruct (checkBoundary h n o) as [o'| |] eqn:Echeck;
    cbn; try discriminate.
  apply checkBoundary_Return in Echeck as (-> & Htype & Hlen).
  destruct (_ || _); intros [= <-]; cbn; auto.
Qed.

(** Setting the end to the start just set collapses the range there. *)
Lemma setEnd_at_start r n o r' :
  startContainer r = n -> startOffset r = toUint32 o ->
  setEnd h r n o = Return r' ->
  r' = mkRange n (toUint32 o) n (toUint32 o).
Proof.
  intros Hn Ho. unfold setEnd.
  destruct (checkBoundary h n o) as [o'| |] eqn:Echeck; cbn; try discriminate.
  apply checkBoundary_Return in Echeck as (-> & _ & _).
  rewrite Hn, Ho. destruct (_ || _); intros [= <-]; reflexivity.
Qed.

(** [create] without end arguments: what it returns is collapsed at the
    start it was given. *)
Lemma create_no_end sc so eo r :
  create h sc so None eo = Return r ->
  r = mkRange sc (toUint32 (orZero so)) sc (toUint32 (orZero so)).
Proof.
  unfold create. destruct (ownerDocument h sc) as [d|]; [|discriminate].
  destruct (setStart h (createRange d) sc (orZero so)) as [r1| |] eqn:Estart;
    cbn; try discriminate.
  apply setStart_Return in Estart as (Hn & Ho & _).
  apply setEnd_at_start; assumption.
Qed.

Lemma create_no_end_collapsed sc so eo r :
  create h sc so None eo = Return r -> collapsed r.
Proof.
  intros ->%create_no_end. split; reflexivity.
Qed.

Lemma create_accepts sc so d :
  ownerDocument h sc = Some d ->
  nodeType h sc <> DOCUMENT_TYPE_NODE ->
  0 <= so <= nodeLength h sc -> so < 2 ^ 32 ->
  create h sc (Some so) None None = Return (mkRange sc so sc so).
Proof.
  intros Hdoc Htype Hlen Hword. unfold create, setStart, setEnd.
  rewrite Hdoc. cbn [orZero].
  rewrite checkBoundary_accepts by assumption. cbn [bind].
  destruct (_ || _); cbn [bind startContainer startOffset];
    destruct (_ || _); reflexivity.
Qed.

Lemma create_rejects sc so d :
  ownerDocument h sc = Some d ->
  nodeType h sc <> DOCUMENT_TYPE_NODE ->
  nodeLength h sc < so -> 0 <= so < 2 ^ 32 ->
  create h sc (Some so) None None = Throw (DOMException "IndexSizeError").
Proof.
  intros Hdoc Htype Hlen Hword. unfold create, setStart, checkBoundary, toUint32.
  rewrite Hdoc. cbn [orZero]. rewrite Z.mod_small by assumption.
  destruct (nodeType h sc =? DOCUMENT_TYPE_NODE) eqn:Etype; [lia|].
  destruct (nodeLength h sc <? so) eqn:Elen; [reflexivity|lia].
Qed.
End RangeFacts.

(** ** Ranges: [create] and [equals] *)

(** C2.  [equals(a, b)] is true exactly when the two ranges have the same
    start container, the same start offset, the same end container and the
    same end offset; as soon as one of the four fields differs it is false. *)
Theorem equals_iff_fields (a b : Range) :
  (equals a b = true <->
     startContainer a = startContainer b /\ startOffset a = startOffset b /\
     endContainer a = endContainer b /\ endOffset a = endOffset b)
  /\ (startContainer a <> startContainer b \/ startOffset a <> startOffset b \/
      endContainer a <> endContainer b \/ endOffset a <> endOffset b
      -> equals a b = false).
Proof.
  assert (Hiff : equals a b = true <->
     startContainer a = startContainer b /\ startOffset a = startOffset b /\
     endContainer a = endContainer b /\ endOffset a = endOffset b).
  { unfold equals. rewrite !andb_true_iff, !Nat.eqb_eq, !Z.eqb_eq. tauto. }
  split; [exact Hiff|].
  intros Hdiff. apply not_true_is_false. intros E.
  apply Hiff in E. tauto.
Qed.

Lemma equals_iff_fields_witness :
  equals (mkRange 3%nat 4 3%nat 4) (mkRange 3%nat 4 3%nat 4) = true
  /\ equals (mkRange 3%nat 4 3%nat 4) (mkRange 3%nat 4 3%nat 5) = false.
Proof.
  split.
  - apply (proj1 (equals_iff_fields (mkRange 3%nat 4 3%nat 4) (mkRange 3%nat 4 3%nat 4))).
    repeat split; reflexivity.
  - apply (proj2 (equals_iff_fields (mkRange 3%nat 4 3%nat 4) (mkRange 3%nat 4 3%nat 5))).
    right. right. right. cbn. lia.
Defined.

(** C3.  [equals] is reflexive: [equals(r, r)] is true for every range. *)
Theorem equals_refl (r : Range) : equals r r = true.
Proof.
  unfold equals. now rewrite !Nat.eqb_refl, !Z.eqb_refl.
Qed.

(** C4, as amended.  On a node that has an owner document and is no doctype,
    [create(n, 3)] without end arguments returns the collapsed range
    [(n, 3, n, 3)] when [n] has length 3 at least, and throws the host's
    [IndexSizeError] when [n] is shorter. *)
Theorem create_at_3 (h : Host) (n d : Node) :
  ownerDocument h n = Some d ->
  nodeType h n <> DOCUMENT_TYPE_NODE ->
  (3 <= nodeLength h n ->
   create h n (Some 3) None None = Return (mkRange n 3 n 3))
  /\ (nodeLength h n < 3 ->
      create h n (Some 3) None None = Throw (DOMException "IndexSizeError")).
Proof.
  intros Hdoc Htype. split; intros Hlen.
  - apply create_accepts with (d := d); try assumption; lia.
  - apply create_rejects with (d := d); try assumption; lia.
Qed.

Lemma create_at_3_witness :
  create Page.host 3%nat (Some 3) None None = Return (mkRange 3%nat 3 3%nat 3)
  /\ create Page.host 6%nat (Some 3) None None
     = Throw (DOMException "IndexSizeError").
Proof.
  split.
  - apply (create_at_3 Page.host 3%nat 0%nat); [reflexivity | discriminate | ].
    vm_compute. discriminate.
  - apply (create_at_3 Page.host 6%nat 0%nat); [reflexivity | discriminate | ].
    vm_compute. reflexivity.
Defined.

(** C4, as stated, fails on a paragraph with two children: the host rejects
    the offset 3 and no range is returned. *)
Lemma create_at_3_short_node :
  Page.lengthOf 6%nat = 2
  /\ create Page.host 6%nat (Some 3) None None
     = Throw (DOMException "IndexSizeError").
Proof. split; reflexivity. Qed.

(** ** Positions: [fromPoint] and [fromPosition] *)

Section PositionFacts.
Variable h : Host.
Variable D : Dom.Api.
Variable A : Arrays.Api.

Lemma fromPoint_negative fuel x y doc :
  x < 0 \/ y < 0 -> fromPoint h D A fuel x y doc = Return None.
Proof.
  intros Hneg. unfold fromPoint.
  replace ((x <? 0) || (y <? 0)) with true; [reflexivity|].
  symmetry. apply orb_true_iff. rewrite !Z.ltb_lt. exact Hneg.
Qed.

Lemma fromPoint_unsupported fuel x y doc :
  caretRangeFromPoint doc = None ->
  caretPositionFromPoint doc = None ->
  elementFromPoint doc = None ->
  0 <= x -> 0 <= y ->
  fromPoint h D A fuel x y doc
  = Throw (ThrownString "fromPoint() unimplemented for this browser").
Proof.
  intros Hrange Hposition Helement Hx Hy. unfold fromPoint.
  rewrite Hrange, Hposition, Helement.
  destruct (x <? 0) eqn:Ex; [lia|]. destruct (y <? 0) eqn:Ey; [lia|].
  reflexivity.
Qed.

Lemma fromPointIE_collapsed fuel x y doc r :
  fromPointIE h D A fuel x y doc = Return r -> collapsed r.
Proof.
  unfold fromPointIE.
  destruct (elementFromPoint doc) as [f|]; [|discriminate].
  destruct (f x y) as [el|]; [|discriminate].
  destruct (selectNodeContents h _ el) as [r0| |]; cbn [bind]; try discriminate.
  match goal with
  | |- bind ?c _ = _ -> _ => destruct c as [p| |]; cbn [bind]; try discriminate
  end.
  destruct (node p) as [sc|]; [|discriminate].
  apply create_no_end_collapsed.
Qed.

(** Without [caretRangeFromPoint], every range [fromPoint] returns was
    built by [create] from one node and one offset. *)
Lemma fromPoint_collapsed fuel x y doc r :
  caretRangesCollapsed doc ->
  fromPoint h D A fuel x y doc = Return (Some r) -> collapsed r.
Proof.
  intros Hhost. unfold fromPoint.
  destruct ((x <? 0) || (y <? 0)); [discriminate|].
  destruct (caretRangeFromPoint doc) as [f|] eqn:Ef.
  { intros [= Hr]. exact (Hhost f x y r Ef Hr). }
  destruct (caretPositionFromPoint doc) as [g|].
  { destruct (g x y) as [pos|]; [|discriminate].
    destruct (create h _ _ None None) as [r1| |] eqn:Ecreate;
      cbn [bind]; try discriminate.
    intros [= <-]. exact (create_no_end_collapsed h _ _ _ _ Ecreate). }
  destruct (elementFromPoint doc); [|discriminate].
  destruct (fromPointIE h D A fuel x y doc) as [r1| |] eqn:Eie;
    cbn [bind]; try discriminate.
  intros [= <-]. exact (fromPointIE_collapsed _ _ _ _ _ Eie).
Qed.
End PositionFacts.

(** C1.  Whatever the document, [fromPosition(x, y, doc)] returns [null]
    when [x < 0] or [y < 0]. *)
Theorem fromPosition_negative (h : Host) (D : Dom.Api) (A : Arrays.Api)
    (fuel : nat) (x y : Z) (doc : Document) :
  x < 0 \/ y < 0 -> fromPosition h D A fuel x y doc = Return None.
Proof.
  intros Hneg. unfold fromPosition.
  now rewrite fromPoint_negative.
Qed.

Lemma fromPosition_negative_witness :
  fromPosition Page.host Page.dom Page.arrays 0 (-1) 5 Page.webkit = Return None
  /\ fromPosition Page.host Page.dom Page.arrays 0 32 (-7) Page.bare = Return None.
Proof.
  split.
  - apply (fromPosition_negative Page.host Page.dom Page.arrays 0 (-1) 5 Page.webkit).
    left. lia.
  - apply (fromPosition_negative Page.host Page.dom Page.arrays 0 32 (-7) Page.bare).
    right. lia.
Defined.

(** C7.  On a document with none of [caretRangeFromPoint],
    [caretPositionFromPoint] and [elementFromPoint], and for coordinates
    that are not negative, [fromPoint] throws its "unimplemented for this
    browser" error, and so does [fromPosition]: no value is returned and
    nothing is tried again. *)
Theorem fromPoint_unsupported_throws (h : Host) (D : Dom.Api) (A : Arrays.Api)
    (fuel : nat) (x y : Z) (doc : Document) :
  caretRangeFromPoint doc = None ->
  caretPositionFromPoint doc = None ->
  elementFromPoint doc = None ->
  0 <= x -> 0 <= y ->
  fromPoint h D A fuel x y doc
  = Throw (ThrownString "fromPoint() unimplemented for this browser")
  /\ fromPosition h D A fuel x y doc
     = Throw (ThrownString "fromPoint() unimplemented for this browser").
Proof.
  intros Hrange Hposition Helement Hx Hy.
  assert (Hthrow := fromPoint_unsupported h D A fuel x y doc
                      Hrange Hposition Helement Hx Hy).
  split; [exact Hthrow|].
  unfold fromPosition. now rewrite Hthrow.
Qed.

Lemma fromPoint_unsupported_throws_witness :
  fromPoint Page.host Page.dom Page.arrays 0 32 5 Page.bare
  = Throw (ThrownString "fromPoint() unimplemented for this browser")
  /\ fromPosition Page.host Page.dom Page.arrays 0 32 5 Page.bare
     = Throw (ThrownString "fromPoint() unimplemented for this browser").
Proof.
  apply (fromPoint_unsupported_throws Page.host Page.dom Page.arrays 0 32 5 Page.bare);
    first [reflexivity | lia].
Defined.

(** C10.  Every range that [fromPosition] returns is collapsed, on each of
    its return paths: the range of the host's [caretRangeFromPoint] passed
    through (collapsed by the host's contract), and the ranges built by
    [create] from one node and one offset. *)
Theorem fromPosition_collapsed (h : Host) (D : Dom.Api) (A : Arrays.Api)
    (fuel : nat) (x y : Z) (doc : Document) (r : Range) :
  caretRangesCollapsed doc ->
  fromPosition h D A fuel x y doc = Return (Some r) ->
  collapsed r.
Proof.
  intros Hhost. unfold fromPosition.
  destruct (fromPoint h D A fuel x y doc) as [[r0|]| |] eqn:Epoint;
    cbn [bind]; try discriminate.
  apply fromPoint_collapsed in Epoint; [|assumption].
  destruct (Dom.isEditableNode D _).
  { now intros [= <-]. }
  destruct (parentBlock h D _) as [block|]; [|discriminate].
  destruct (parentNode h block) as [parent|]; [|discriminate].
  destruct (body doc) as [b|]; [|discriminate].
  match goal with
  | |- bind ?c _ = _ -> _ => destruct c as [r1| |] eqn:Ecreate;
                             cbn [bind]; try discriminate
  end.
  intros [= <-]. exact (create_no_end_collapsed h _ _ _ _ Ecreate).
Qed.

Lemma caretRangesCollapsed_legacy : caretRangesCollapsed Page.legacy.
Proof. intros f x y r Hf. discriminate Hf. Defined.

Lemma caretRangesCollapsed_webkit : caretRangesCollapsed Page.webkit.
Proof.
  intros f x y r [= <-]. cbn beta.
  destruct (y <? 20); [|discriminate].
  destruct (x <? 100); intros [= <-]; split; reflexivity.
Defined.

Lemma fromPosition_collapsed_witness :
  (fromPosition Page.host Page.dom Page.arrays 20 32 5 Page.legacy
   = Return (Some (mkRange 3%nat 4 3%nat 4))
   /\ collapsed (mkRange 3%nat 4 3%nat 4))
  /\ (fromPosition Page.host Page.dom Page.arrays 20 110 5 Page.webkit
      = Return (Some (mkRange 2%nat 1 2%nat 1))
      /\ collapsed (mkRange 2%nat 1 2%nat 1)).
Proof.
  split; (split; [reflexivity|]).
  - apply (fromPosition_collapsed Page.host Page.dom Page.arrays
             20 32 5 Page.legacy);
      [exact caretRangesCollapsed_legacy | reflexivity].
  - apply (fromPosition_collapsed Page.host Page.dom Page.arrays
             20 110 5 Page.webkit);
      [exact caretRangesCollapsed_webkit | reflexivity].
Defined.

(** ** The fallback scan: [stepTextNode] and [findOffset] *)

Section ScanFacts.
Variable h : Host.
Variable D : Dom.Api.
Variable A : Arrays.Api.
Variables x y : Z.

(** The Range interface throws or returns; it makes no recursive call. *)
Lemma setEnd_outcome r n o : setEnd h r n o <> OutOfFuel.
Proof.
  unfold setEnd, checkBoundary.
  destruct (nodeType h n =? DOCUMENT_TYPE_NODE); [discriminate|].
  destruct (nodeLength h n <? toUint32 o); [discriminate|].
  cbn. destruct (_ || _); discriminate.
Qed.

Lemma setEndAfter_outcome r m : setEndAfter h r m <> OutOfFuel.
Proof.
  unfold setEndAfter. destruct (parentNode h m); [|discriminate].
  apply setEnd_outcome.
Qed.

(** Both scans read the start of the probe range only: where its end was
    left does not matter to them. *)
Lemma stepTextNode_start fuel n r n' o' o :
  stepTextNode h A fuel n (withEnd r n' o') o x y
  = stepTextNode h A fuel n r o x y.
Proof. destruct fuel; reflexivity. Qed.

Lemma findOffset_start fuel m r n' o' :
  findOffset h D A fuel m (withEnd r n' o') x y
  = findOffset h D A fuel m r x y.
Proof.
  destruct fuel as [|fuel]; [reflexivity|]. cbn [findOffset].
  destruct (Dom.isTextNode D m); [apply stepTextNode_start | reflexivity].
Qed.

Lemma findOffset_endAfter fuel m r m' :
  findOffset h D A fuel m (endAfter h r m') x y
  = findOffset h D A fuel m r x y.
Proof.
  unfold endAfter. destruct (parentNode h m'); [|reflexivity].
  apply findOffset_start.
Qed.

(** One call of [stepTextNode] at an offset the probe range extends to. *)
Lemma stepTextNode_step fuel n r o :
  probes h r n o ->
  stepTextNode h A (S fuel) n r o x y
  = match textHit h A x y r n o with
    | Some rect =>
        Return (mkPosition (Some n) (nearerEdge x rect o), withEnd r n o)
    | None =>
        if o <? nodeLength h n
        then stepTextNode h A fuel n r (o + 1) x y
        else Return (mkPosition (Some n) o, withEnd r n o)
    end.
Proof.
  intros Hprobe. cbn [stepTextNode]. rewrite Hprobe. cbn [bind].
  unfold textHit, textRect, nearerEdge.
  destruct (hitRect x y _); [reflexivity|].
  destruct (o <? nodeLength h n); [apply stepTextNode_start | reflexivity].
Qed.

(** The text scan from offset [o]: it stops at the first offset at which
    the point is in or above the rectangle, and at the length of the node
    when there is none. *)
Lemma stepTextNode_scan n r fuel :
  forall o,
    (forall k, o <= k <= nodeLength h n -> probes h r n k) ->
    o <= nodeLength h n ->
    (Z.to_nat (nodeLength h n - o) < fuel)%nat ->
    (exists k rect,
        o <= k <= nodeLength h n
        /\ (forall j, o <= j < k -> textHit h A x y r n j = None)
        /\ textHit h A x y r n k = Some rect
        /\ stepTextNode h A fuel n r o x y
           = Return (mkPosition (Some n) (nearerEdge x rect k), withEnd r n k))
    \/ ((forall j, o <= j <= nodeLength h n -> textHit h A x y r n j = None)
        /\ stepTextNode h A fuel n r o x y
           = Return (mkPosition (Some n) (nodeLength h n),
                     withEnd r n (nodeLength h n))).
Proof.
  induction fuel as [|fuel IH]; intros o Hprobes Ho Hfuel; [lia|].
  rewrite stepTextNode_step by (apply Hprobes; lia).
  destruct (textHit h A x y r n o) as [rect|] eqn:Ehit.
  - left. exists o, rect. repeat split; try lia; assumption.
  - destruct (o <? nodeLength h n) eqn:Elt.
    + apply Z.ltb_lt in Elt.
      destruct (IH (o + 1)) as [(k & rect & Hk & Hbefore & Hat & Hrun) | (Hnone & Hrun)];
        try lia.
      { intros k Hk. apply Hprobes. lia. }
      * left. exists k, rect. repeat split; try lia; try assumption.
        intros j Hj. destruct (Z.eq_dec j o) as [->|]; [assumption|].
        apply Hbefore. lia.
      * right. split; [|assumption].
        intros j Hj. destruct (Z.eq_dec j o) as [->|]; [assumption|].
        apply Hnone. lia.
    + apply Z.ltb_ge in Elt. assert (o = nodeLength h n) as -> by lia.
      right. split; [|reflexivity].
      intros j Hj. assert (j = nodeLength h n) as -> by lia. assumption.
Qed.

(** [stepTextNode] makes one call per offset left in the node: with that
    many calls allowed it has its outcome, and more change nothing. *)
Lemma stepTextNode_depth n fuel :
  forall fuel' r o,
    (Z.to_nat (nodeLength h n - o) < fuel)%nat ->
    (Z.to_nat (nodeLength h n - o) < fuel')%nat ->
    stepTextNode h A fuel n r o x y <> OutOfFuel
    /\ stepTextNode h A fuel' n r o x y = stepTextNode h A fuel n r o x y.
Proof.
  induction fuel as [|fuel IH]; intros fuel' r o Hfuel Hfuel'; [lia|].
  destruct fuel' as [|fuel']; [lia|]. cbn [stepTextNode].
  destruct (setEnd h r n o) as [r'| |] eqn:Eset; cbn [bind].
  - destruct (hitRect x y _); [split; [discriminate|reflexivity]|].
    destruct (o <? nodeLength h n) eqn:Elt;
      [|split; [discriminate|reflexivity]].
    apply Z.ltb_lt in Elt. apply IH; lia.
  - split; [discriminate|reflexivity].
  - now apply setEnd_outcome in Eset.
Qed.

(** [findOffset] makes one call per sibling up to the first text node,
    and [stepTextNode] goes on from there. *)
Lemma findOffset_depth r bound :
  forall m fuel,
    siblingAt h bound m = None ->
    (callDepth h D bound m <= fuel)%nat ->
    findOffset h D A fuel m r x y <> OutOfFuel
    /\ findOffset h D A fuel m r x y
       = findOffset h D A (callDepth h D bound m) m r x y.
Proof.
  revert r. induction bound as [|bound IH]; intros r m fuel Hend Hfuel;
    [discriminate|].
  cbn [siblingAt] in Hend. cbn [callDepth] in *.
  destruct (Dom.isTextNode D m) eqn:Etext.
  - destruct fuel as [|fuel]; [lia|]. cbn [findOffset]. rewrite Etext.
    destruct (stepTextNode_depth m fuel (S (Z.to_nat (nodeLength h m))) r 0)
      as [Hout Hsame]; try lia.
    split; [exact Hout | symmetry; exact Hsame].
  - destruct (nextSibling h m) as [s|] eqn:Enext.
    + destruct fuel as [|fuel]; [lia|]. cbn [findOffset].
      rewrite Etext, Enext.
      destruct (setEndAfter h r m) as [r'| |] eqn:Eset; cbn [bind].
      * destruct (hitRect x y _); [split; [discriminate|reflexivity]|].
        apply IH; [assumption|lia].
      * split; [discriminate|reflexivity].
      * now apply setEndAfter_outcome in Eset.
    + destruct fuel as [|fuel]; [lia|]. cbn [findOffset].
      rewrite Etext, Enext.
      destruct (setEndAfter h r m) as [r'| |] eqn:Eset; cbn [bind].
      * destruct (hitRect x y _); split; first [discriminate|reflexivity].
      * split; [discriminate|reflexivity].
      * now apply setEndAfter_outcome in Eset.
Qed.

(** The sibling scan passes the siblings that are no text nodes and whose
    rectangle the point is not in or above. *)
Lemma findOffset_skip r i :
  forall n m fuel,
    siblingAt h i n = Some m ->
    (forall j m', (j < i)%nat -> siblingAt h j n = Some m' ->
                  Dom.isTextNode D m' = false
                  /\ probesAfter h r m'
                  /\ siblingHit h A x y r m' = None) ->
    findOffset h D A (i + fuel) n r x y = findOffset h D A fuel m r x y.
Proof.
  induction i as [|i IH]; intros n m fuel Hat Hpassed.
  - cbn in Hat. injection Hat as <-. reflexivity.
  - cbn [siblingAt] in Hat.
    destruct (nextSibling h n) as [s|] eqn:Enext; [|discriminate].
    destruct (Hpassed O n) as (Etext & Hprobe & Ehit); [lia|reflexivity|].
    cbn [Nat.add findOffset]. rewrite Etext, Hprobe. cbn [bind].
    unfold siblingHit in Ehit. rewrite Ehit, Enext.
    rewrite findOffset_endAfter.
    apply IH; [assumption|].
    intros j m' Hj Hm'. apply (Hpassed (S j)); [lia|].
    cbn [siblingAt]. now rewrite Enext.
Qed.

(** Where the sibling scan stops: at a text node, which [stepTextNode]
    scans; at a sibling whose rectangle the point is in or above; at the
    last sibling. *)
Lemma findOffset_text r fuel m :
  Dom.isTextNode D m = true ->
  findOffset h D A (S fuel) m r x y = stepTextNode h A fuel m r 0 x y.
Proof. intros Etext. cbn [findOffset]. now rewrite Etext. Qed.

Lemma findOffset_stop r fuel m :
  Dom.isTextNode D m = false ->
  probesAfter h r m ->
  siblingHit h A x y r m <> None \/ nextSibling h m = None ->
  findOffset h D A (S fuel) m r x y
  = Return (positionOf h D m, endAfter h r m).
Proof.
  intros Etext Hprobe Hstop. cbn [findOffset]. rewrite Etext, Hprobe.
  cbn [bind]. unfold siblingHit in Hstop.
  destruct (hitRect x y _); [reflexivity|].
  destruct Hstop as [Hhit|Hlast]; [contradiction|].
  now rewrite Hlast.
Qed.
End ScanFacts.

Lemma hitRect_Some x y o rect :
  hitRect x y o = Some rect ->
  o = Some rect
  /\ y < Rect.bottom rect /\ Rect.left rect <= x <= Rect.right rect.
Proof.
  unfold hitRect, pointIsInOrAboveRect. destruct o as [rect'|]; [|discriminate].
  destruct (_ && _) eqn:Ein; [|discriminate].
  intros [= ->]. apply andb_true_iff in Ein as [Ein Hright].
  apply andb_true_iff in Ein as [Hbottom Hleft].
  split; [reflexivity|]. lia.
Qed.


(** C9.  Both scans terminate.  [stepTextNode] called with an offset that
    does not exceed the length of the node has its outcome (it returns or
    throws) within one call per offset left, since each call goes on with
    the next offset and none goes past the length.  [findOffset] on a node
    whose chain of next siblings ends has its outcome within one call per
    sibling and the calls of [stepTextNode] on the first text node. *)
Theorem scans_terminate (h : Host) (D : Dom.Api) (A : Arrays.Api) (x y : Z) :
  (forall n r o,
      o <= nodeLength h n ->
      exists out,
        out <> OutOfFuel
        /\ forall fuel, (Z.to_nat (nodeLength h n - o) < fuel)%nat ->
                        stepTextNode h A fuel n r o x y = out)
  /\ (forall m r bound,
         siblingAt h bound m = None ->
         exists out,
           out <> OutOfFuel
           /\ forall fuel, (callDepth h D bound m <= fuel)%nat ->
                           findOffset h D A fuel m r x y = out).
Proof.
  split.
  - intros n r o _.
    exists (stepTextNode h A (S (Z.to_nat (nodeLength h n - o))) n r o x y).
    split.
    + apply (stepTextNode_depth h A x y n _ (S (Z.to_nat (nodeLength h n - o))) r o);
        lia.
    + intros fuel Hfuel.
      apply (stepTextNode_depth h A x y n _ fuel r o); lia.
  - intros m r bound Hend.
    exists (findOffset h D A (callDepth h D bound m) m r x y).
    split.
    + apply (findOffset_depth h D A x y r bound m _ Hend). lia.
    + intros fuel Hfuel.
      apply (findOffset_depth h D A x y r bound m fuel Hend Hfuel).
Qed.

(** *** The scans on the sample page *)

Lemma Page_probes_text k :
  0 <= k <= nodeLength Page.host 3%nat ->
  probes Page.host (mkRange 2%nat 0 2%nat 0) 3%nat k.
Proof.
  change (nodeLength Page.host 3%nat) with 10. intros Hk.
  assert (k = 0 \/ k = 1 \/ k = 2 \/ k = 3 \/ k = 4 \/ k = 5 \/ k = 6
          \/ k = 7 \/ k = 8 \/ k = 9 \/ k = 10) as Hcases by lia.
  repeat (destruct Hcases as [-> | Hcases]; [reflexivity|]).
  subst k. reflexivity.
Qed.




(** C6.  The position [stepTextNode] returns is not always the closer of
    the two character boundaries next to the probe [x].  On the text of the
    sample page at [x = 32] the point is between the boundaries 3, drawn at
    [x = 30], and 4, drawn at [x = 40]; the closer one is 3.  The scan stops
    at offset 4 and keeps it: the rectangle that lines 90-92 compare with is
    that of the first four characters, whose left edge is at [x = 0], not
    that of the fourth character. *)
Lemma stepTextNode_farther_boundary :
  onReturn fst
    (stepTextNode Page.host Page.arrays 20 3%nat (mkRange 2%nat 0 2%nat 0) 0 32 5)
  = Return (mkPosition (Some 3%nat) 4)
  /\ textHit Page.host Page.arrays 32 5 (mkRange 2%nat 0 2%nat 0) 3%nat 4
     = Some (Rect.mk 0 0 40 20)
  /\ Page.caretX 3%nat 3 = 30 /\ Page.caretX 3%nat 4 = 40
  /\ closerBoundary (Page.caretX 3%nat 3) (Page.caretX 3%nat 4) 32 4 = 3.
Proof. repeat split; reflexivity. Qed.

Lemma scans_terminate_witness :
  (exists out,
      out <> OutOfFuel
      /\ forall fuel, (Z.to_nat (nodeLength Page.host 3%nat - 0) < fuel)%nat ->
           stepTextNode Page.host Page.arrays fuel 3%nat (mkRange 2%nat 0 2%nat 0) 0 32 5
           = out)
  /\ (exists out,
         out <> OutOfFuel
         /\ forall fuel, (callDepth Page.host Page.dom 2 7%nat <= fuel)%nat ->
              findOffset Page.host Page.dom Page.arrays fuel 7%nat
                (mkRange 6%nat 0 6%nat 0) 60 40
              = out).
Proof.
  split.
  - apply (proj1 (scans_terminate Page.host Page.dom Page.arrays 32 5)).
    vm_compute. discriminate.
  - apply (proj2 (scans_terminate Page.host Page.dom Page.arrays 60 40)).
    reflexivity.
Defined.

(** * Further properties of [ranges.js] *)

(** ** [equals] and [create] *)

Lemma equals_eq (a b : Range) : equals a b = true <-> a = b.
Proof.
  unfold equals. rewrite !andb_true_iff, !Nat.eqb_eq, !Z.eqb_eq.
  destruct a, b; cbn. split.
  - intros [[[-> ->] ->] ->]. reflexivity.
  - intros [= -> -> -> ->]. auto.
Qed.

(** X1.  [equals] is symmetric and transitive: with its reflexivity, an
    equivalence on ranges. *)
Theorem equals_equivalence :
  (forall a b, equals a b = equals b a)
  /\ (forall a b c, equals a b = true -> equals b c = true -> equals a c = true).
Proof.
  split.
  - intros a b. destruct (equals b a) eqn:Eba.
    + apply equals_eq. symmetry. now apply equals_eq.
    + apply not_true_is_false. intros Eab. apply equals_eq in Eab.
      subst b. now rewrite (proj2 (equals_eq a a) eq_refl) in Eba.
  - intros a b c Hab Hbc. apply equals_eq in Hab, Hbc. apply equals_eq.
    congruence.
Qed.

Lemma equals_equivalence_witness :
  equals (mkRange 3%nat 4 3%nat 4) (mkRange 3%nat 4 3%nat 4) = true.
Proof.
  apply (proj2 equals_equivalence
           (mkRange 3%nat 4 3%nat 4) (mkRange 3%nat 4 3%nat 4) (mkRange 3%nat 4 3%nat 4));
    reflexivity.
Defined.

Section CreateFacts.
Variable h : Host.

Lemma setStart_outcome r n o : setStart h r n o <> OutOfFuel.
Proof.
  unfold setStart, checkBoundary.
  destruct (nodeType h n =? DOCUMENT_TYPE_NODE); [discriminate|].
  destruct (nodeLength h n <? toUint32 o); [discriminate|].
  cbn. destruct (_ || _); discriminate.
Qed.

Lemma create_outcome sc so ec eo : create h sc so ec eo <> OutOfFuel.
Proof.
  unfold create. destruct (ownerDocument h sc); [|discriminate].
  destruct (setStart h _ sc _) as [r| |] eqn:Estart; cbn [bind].
  - destruct ec; apply setEnd_outcome.
  - discriminate.
  - now apply setStart_outcome in Estart.
Qed.

Lemma setEnd_Return r n o r' :
  setEnd h r n o = Return r' ->
  endContainer r' = n /\ endOffset r' = toUint32 o
  /\ (startContainer r' = startContainer r /\ startOffset r' = startOffset r
      \/ collapsed r').
Proof.
  unfold setEnd. destruct (checkBoundary h n o) as [o'| |] eqn:Echeck;
    cbn; try discriminate.
  apply checkBoundary_Return in Echeck as (-> & _ & _).
  destruct (_ || _); intros [= <-]; cbn; repeat split; auto.
  right. split; reflexivity.
Qed.

(** A boundary point that passed the host's validation as the end of a
    range passes it as the start of a new one. *)
Lemma create_checked sc so d :
  ownerDocument h sc = Some d ->
  checkBoundary h sc so = Return so ->
  create h sc (Some so) None None = Return (mkRange sc so sc so).
Proof.
  intros Hdoc Hcheck. unfold create, setStart, setEnd.
  rewrite Hdoc. cbn [orZero]. rewrite Hcheck. cbn [bind].
  destruct (_ || _); cbn [bind startContainer startOffset];
    destruct (_ || _); reflexivity.
Qed.

Lemma probes_checked r n o : probes h r n o -> checkBoundary h n o = Return o.
Proof.
  unfold probes, setEnd.
  destruct (checkBoundary h n o) as [o'| |]; cbn; try discriminate.
  destruct (_ || _); intros [= Ho]; congruence.
Qed.
End CreateFacts.

(** X2.  [create(sc, so, ec, eo)] with an end boundary the host accepts, in
    the tree of the start and not before it, returns the range with exactly
    the four fields given. *)
Theorem create_with_end (h : Host) (sc ec d : Node) (so eo : Z) :
  ownerDocument h sc = Some d ->
  nodeType h sc <> DOCUMENT_TYPE_NODE ->
  0 <= so <= nodeLength h sc -> so < 2 ^ 32 ->
  nodeType h ec <> DOCUMENT_TYPE_NODE ->
  0 <= eo <= nodeLength h ec -> eo < 2 ^ 32 ->
  root h sc = root h ec ->
  position h ec eo sc so <> Lt ->
  create h sc (Some so) (Some ec) (Some eo) = Return (mkRange sc so ec eo).
Proof.
  intros Hdoc Hstype Hslen Hsword Hetype Helen Heword Hroot Hpos.
  unfold create. rewrite Hdoc. cbn [orZero].
  assert (Hstart : exists n o,
             setStart h (createRange d) sc so = Return (mkRange sc so n o)).
  { unfold setStart. rewrite checkBoundary_accepts by assumption. cbn [bind].
    destruct (_ || _); eauto. }
  destruct Hstart as (n & o & ->). cbn [bind].
  apply (probes_intro h (mkRange sc so n o) ec eo); assumption.
Qed.

Lemma create_with_end_witness :
  create Page.host 3%nat (Some 2) (Some 4%nat) (Some 0)
  = Return (mkRange 3%nat 2 4%nat 0).
Proof.
  apply (create_with_end Page.host 3%nat 4%nat 0%nat 2 0);
    first [reflexivity | discriminate | vm_compute; split; discriminate].
Defined.

(** X3.  Whatever the order of the two boundary points, the range that
    [create(sc, so, ec, eo)] returns ends at the end boundary given; its
    start is the one given, unless the host moved it onto the end, and then
    the range is collapsed. *)
Theorem create_keeps_end (h : Host) (sc ec : Node) (so eo : option Z) (r : Range) :
  create h sc so (Some ec) eo = Return r ->
  endContainer r = ec /\ endOffset r = toUint32 (orZero eo)
  /\ (startContainer r = sc /\ startOffset r = toUint32 (orZero so)
      \/ collapsed r).
Proof.
  unfold create. destruct (ownerDocument h sc) as [d|]; [|discriminate].
  destruct (setStart h (createRange d) sc (orZero so)) as [r1| |] eqn:Estart;
    cbn [bind]; try discriminate.
  apply setStart_Return in Estart as (Hn & Ho & _).
  intros Hend. apply setEnd_Return in Hend as (Hec & Heo & Hstart).
  rewrite Hn, Ho in Hstart. auto.
Qed.

Lemma create_keeps_end_witness :
  (endContainer (mkRange 3%nat 2 3%nat 2) = 3%nat
   /\ endOffset (mkRange 3%nat 2 3%nat 2) = toUint32 (orZero (Some 2))
   /\ (startContainer (mkRange 3%nat 2 3%nat 2) = 3%nat
       /\ startOffset (mkRange 3%nat 2 3%nat 2) = toUint32 (orZero (Some 7))
       \/ collapsed (mkRange 3%nat 2 3%nat 2))).
Proof.
  apply (create_keeps_end Page.host 3%nat 3%nat (Some 7) (Some 2)).
  reflexivity.
Defined.

(** X4.  [create(n)] without any offset returns the collapsed range at the
    start of [n], on every node that is no document and no doctype: the
    missing offset counts as 0, which no node is too short for. *)
Theorem create_without_offsets (h : Host) (n d : Node) :
  ownerDocument h n = Some d ->
  nodeType h n <> DOCUMENT_TYPE_NODE ->
  0 <= nodeLength h n ->
  create h n None None None = Return (mkRange n 0 n 0).
Proof.
  intros Hdoc Htype Hlen.
  apply (create_accepts h n 0 d); try assumption; lia.
Qed.

Lemma create_without_offsets_witness :
  create Page.host 5%nat None None None = Return (mkRange 5%nat 0 5%nat 0).
Proof.
  apply (create_without_offsets Page.host 5%nat 0%nat);
    first [reflexivity | discriminate].
Defined.

(** X5.  Two collapsed ranges made by [create] are [equals] exactly when
    they were made at the same node and the same offset. *)
Theorem create_equals (h : Host) (n n' : Node) (o o' : Z) (r r' : Range) :
  0 <= o < 2 ^ 32 -> 0 <= o' < 2 ^ 32 ->
  create h n (Some o) None None = Return r ->
  create h n' (Some o') None None = Return r' ->
  (equals r r' = true <-> n = n' /\ o = o').
Proof.
  intros Ho Ho' ->%create_no_end ->%create_no_end.
  cbn [orZero]. unfold toUint32. rewrite !Z.mod_small by assumption.
  rewrite equals_eq. split.
  - intros [= -> ->]. auto.
  - intros [-> ->]. reflexivity.
Qed.

Lemma create_equals_witness :
  equals (mkRange 3%nat 3 3%nat 3) (mkRange 3%nat 4 3%nat 4) = true
  <-> 3%nat = 3%nat /\ 3 = 4.
Proof.
  apply (create_equals Page.host 3%nat 3%nat 3 4); first [lia | reflexivity].
Defined.

(** ** The fallback: [stepTextNode], [findOffset] and [fromPointIE] *)

Section FallbackFacts.
Variable h : Host.
Variable D : Dom.Api.
Variable A : Arrays.Api.
Variables x y : Z.

(** The position [stepTextNode] returns is in the node it was given. *)
Lemma stepTextNode_node n fuel :
  forall r o p range,
    stepTextNode h A fuel n r o x y = Return (p, range) -> node p = Some n.
Proof.
  induction fuel as [|fuel IH]; intros r o p range; [discriminate|].
  cbn [stepTextNode].
  destruct (setEnd h r n o) as [r'| |]; cbn [bind]; try discriminate.
  destruct (hitRect x y _).
  - intros [= <- _]. reflexivity.
  - destruct (o <? nodeLength h n); [apply IH|].
    intros [= <- _]. reflexivity.
Qed.

Lemma stepTextNode_bounds_from n r fuel :
  forall o p range,
    (forall k, o <= k <= nodeLength h n -> probes h r n k) ->
    o <= nodeLength h n ->
    stepTextNode h A fuel n r o x y = Return (p, range) ->
    o - 1 <= index p <= nodeLength h n
    /\ (index p = o - 1 <->
        exists rect, textHit h A x y r n o = Some rect
                     /\ x - Rect.left rect < Rect.right rect - x).
Proof.
  induction fuel as [|fuel IH]; intros o p range Hprobes Ho; [discriminate|].
  rewrite stepTextNode_step by (apply Hprobes; lia).
  destruct (textHit h A x y r n o) as [rect|] eqn:Ehit.
  - intros [= <- _]. cbn [index]. unfold nearerEdge.
    destruct (Rect.right rect - x >? x - Rect.left rect) eqn:Enear.
    + split; [lia|]. split; [|reflexivity].
      intros _. exists rect. split; [reflexivity|lia].
    + split; [lia|]. split; [lia|].
      intros (rect' & [= <-] & Hnear). lia.
  - destruct (o <? nodeLength h n) eqn:Elt.
    + apply Z.ltb_lt in Elt. intros Hrun.
      apply IH in Hrun as [Hbounds _]; [|intros k Hk; apply Hprobes; lia|lia].
      split; [lia|]. split; [lia|].
      intros (rect & Hrect & _). discriminate.
    + intros [= <- _]. cbn [index]. split; [lia|]. split; [lia|].
      intros (rect & Hrect & _). discriminate.
Qed.

(** [findOffset] and [fromPointIE] are called with a range collapsed at the
    start of the element: what [fromPointIE] does up to the scan. *)
Lemma fromPointIE_scan fuel doc e el first :
  elementFromPoint doc = Some e -> e x y = Some el ->
  nodeType h el <> DOCUMENT_TYPE_NODE ->
  firstChild h el = Some first ->
  fromPointIE h D A fuel x y doc
  = (found <- findOffset h D A fuel first (mkRange el 0 el 0) x y ;;
     match node (fst found) with
     | None => Throw TypeError
     | Some sc => create h sc (Some (index (fst found))) None None
     end).
Proof.
  intros He Hel Htype Hfirst. unfold fromPointIE, selectNodeContents.
  rewrite He, Hel, Hfirst.
  destruct (nodeType h el =? DOCUMENT_TYPE_NODE) eqn:E; [lia|].
  cbn [bind node collapse startContainer startOffset].
  destruct (findOffset h D A fuel first _ x y); reflexivity.
Qed.
End FallbackFacts.

(** X7.  The offset that the text scan from offset 0 returns is at least -1
    and at most the length of the node, and it is in the node scanned.  It
    is -1 exactly when the point is in or above the rectangle of offset 0
    itself and strictly nearer its left edge than its right edge: the
    decrement has no guard for the first offset. *)
Theorem stepTextNode_index_bounds (h : Host) (A : Arrays.Api) (x y : Z)
    (r : Range) (n : Node) (fuel : nat) (p : Position) (range : Range) :
  (forall k, 0 <= k <= nodeLength h n -> probes h r n k) ->
  0 <= nodeLength h n ->
  stepTextNode h A fuel n r 0 x y = Return (p, range) ->
  node p = Some n
  /\ -1 <= index p <= nodeLength h n
  /\ (index p = -1 <->
      exists rect, textHit h A x y r n 0 = Some rect
                   /\ x - Rect.left rect < Rect.right rect - x).
Proof.
  intros Hprobes Hlen Hrun. split.
  - exact (stepTextNode_node h A x y n fuel r 0 p range Hrun).
  - apply (stepTextNode_bounds_from h A x y n r fuel 0 p range Hprobes Hlen Hrun).
Qed.

Lemma stepTextNode_index_bounds_witness :
  node (mkPosition (Some 3%nat) 4) = Some 3%nat
  /\ -1 <= index (mkPosition (Some 3%nat) 4) <= nodeLength Page.host 3%nat
  /\ (index (mkPosition (Some 3%nat) 4) = -1 <->
      exists rect,
        textHit Page.host Page.arrays 32 5 (mkRange 2%nat 0 2%nat 0) 3%nat 0 = Some rect
        /\ 32 - Rect.left rect < Rect.right rect - 32).
Proof.
  apply (stepTextNode_index_bounds Page.host Page.arrays 32 5
           (mkRange 2%nat 0 2%nat 0) 3%nat 20 _ (mkRange 2%nat 0 3%nat 4)
           Page_probes_text).
  - vm_compute. discriminate.
  - reflexivity.
Defined.

(** X8.  When the first child of the element hit is a text node and the
    host reports, for the probe range that ends at its offset 0, a rectangle
    that the point is in or above and strictly nearer the left edge of,
    [fromPointIE] asks [create] for offset -1 and the host's
    [IndexSizeError] is thrown. *)
Theorem fromPointIE_before_text (h : Host) (D : Dom.Api) (A : Arrays.Api)
    (fuel : nat) (x y : Z) (doc : Document)
    (e : Z -> Z -> option Node) (el t d : Node) (rect : Rect.t) :
  elementFromPoint doc = Some e -> e x y = Some el ->
  nodeType h el <> DOCUMENT_TYPE_NODE ->
  firstChild h el = Some t ->
  Dom.isTextNode D t = true ->
  probes h (mkRange el 0 el 0) t 0 ->
  textHit h A x y (mkRange el 0 el 0) t 0 = Some rect ->
  x - Rect.left rect < Rect.right rect - x ->
  ownerDocument h t = Some d ->
  nodeLength h t < 2 ^ 32 - 1 ->
  (2 <= fuel)%nat ->
  fromPointIE h D A fuel x y doc = Throw (DOMException "IndexSizeError").
Proof.
  intros He Hel Htype Hfirst Htext Hprobe Hhit Hnear Hdoc Hlen Hfuel.
  rewrite (fromPointIE_scan h D A x y fuel doc e el t He Hel Htype Hfirst).
  destruct fuel as [|[|fuel]]; try lia.
  rewrite findOffset_text by assumption.
  rewrite stepTextNode_step by assumption. rewrite Hhit.
  cbn [bind fst node index]. unfold nearerEdge.
  destruct (Rect.right rect - x >? x - Rect.left rect) eqn:E; [|lia].
  apply probes_checked, checkBoundary_Return in Hprobe as (_ & Hnodoctype & _).
  unfold create, setStart, checkBoundary. rewrite Hdoc. cbn [orZero].
  destruct (nodeType h t =? DOCUMENT_TYPE_NODE) eqn:Et; [lia|].
  change (toUint32 (0 - 1)) with (2 ^ 32 - 1).
  destruct (nodeLength h t <? 2 ^ 32 - 1) eqn:El; [reflexivity|lia].
Qed.

Lemma fromPointIE_before_text_witness :
  fromPointIE Variants.caretBoxes Page.dom Page.arrays 20 0 5 Page.legacy
  = Throw (DOMException "IndexSizeError").
Proof.
  eapply (fromPointIE_before_text Variants.caretBoxes Page.dom Page.arrays
            20 0 5 Page.legacy _ 2%nat 3%nat 0%nat (Rect.mk 0 0 1 20));
    first [reflexivity | discriminate | lia | vm_compute; reflexivity].
Defined.

(** X9.  When the first child of the element hit is a text node, every
    range [fromPointIE] returns is collapsed at a boundary point of that
    text node, whatever siblings follow it: the scan never leaves the first
    text node it enters. *)
Theorem fromPointIE_in_first_text (h : Host) (D : Dom.Api) (A : Arrays.Api)
    (fuel : nat) (x y : Z) (doc : Document)
    (e : Z -> Z -> option Node) (el t : Node) (r : Range) :
  elementFromPoint doc = Some e -> e x y = Some el ->
  firstChild h el = Some t ->
  Dom.isTextNode D t = true ->
  fromPointIE h D A fuel x y doc = Return r ->
  r = mkRange t (startOffset r) t (startOffset r)
  /\ 0 <= startOffset r <= nodeLength h t.
Proof.
  intros He Hel Hfirst Htext. unfold fromPointIE.
  rewrite He, Hel, Hfirst.
  destruct (selectNodeContents h _ el) as [r0| |]; cbn [bind node];
    try discriminate.
  destruct fuel as [|fuel]; [discriminate|].
  rewrite findOffset_text by assumption.
  destruct (stepTextNode h A fuel t _ 0 x y) as [[p range]| |] eqn:Erun;
    cbn [bind fst]; try discriminate.
  rewrite (stepTextNode_node h A x y t fuel _ 0 p range Erun).
  intros Hcreate. pose proof (create_no_end h _ _ _ _ Hcreate) as ->.
  cbn [startOffset]. split; [reflexivity|].
  unfold create in Hcreate.
  destruct (ownerDocument h t); [|discriminate].
  destruct (setStart h _ t _) as [r1| |] eqn:Estart; try discriminate.
  apply setStart_Return in Estart as (_ & _ & _ & Hle).
  split; [|exact Hle].
  unfold toUint32. apply Z.mod_pos_bound. reflexivity.
Qed.

Lemma fromPointIE_in_first_text_witness :
  mkRange 3%nat 10 3%nat 10
  = mkRange 3%nat (startOffset (mkRange 3%nat 10 3%nat 10)) 3%nat
      (startOffset (mkRange 3%nat 10 3%nat 10))
  /\ 0 <= startOffset (mkRange 3%nat 10 3%nat 10) <= nodeLength Page.host 3%nat.
Proof.
  eapply (fromPointIE_in_first_text Page.host Page.dom Page.arrays 20 110 5
            Page.legacy _ 2%nat 3%nat); reflexivity.
Defined.

(** X10.  When the first child of the element hit is a text node and the
    point is in or above the rectangle of none of its offsets, [fromPointIE]
    returns the collapsed range at the end of that text node. *)
Theorem fromPointIE_past_text (h : Host) (D : Dom.Api) (A : Arrays.Api)
    (fuel : nat) (x y : Z) (doc : Document)
    (e : Z -> Z -> option Node) (el t d : Node) :
  elementFromPoint doc = Some e -> e x y = Some el ->
  nodeType h el <> DOCUMENT_TYPE_NODE ->
  firstChild h el = Some t ->
  Dom.isTextNode D t = true ->
  0 <= nodeLength h t ->
  (forall k, 0 <= k <= nodeLength h t -> probes h (mkRange el 0 el 0) t k) ->
  (forall k, 0 <= k <= nodeLength h t ->
             textHit h A x y (mkRange el 0 el 0) t k = None) ->
  ownerDocument h t = Some d ->
  (Z.to_nat (nodeLength h t) + 1 < fuel)%nat ->
  fromPointIE h D A fuel x y doc
  = Return (mkRange t (nodeLength h t) t (nodeLength h t)).
Proof.
  intros He Hel Htype Hfirst Htext Hlen Hprobes Hnone Hdoc Hfuel.
  rewrite (fromPointIE_scan h D A x y fuel doc e el t He Hel Htype Hfirst).
  destruct fuel as [|fuel]; [lia|].
  rewrite findOffset_text by assumption.
  destruct (stepTextNode_scan h A x y t (mkRange el 0 el 0) fuel 0)
    as [(k & rect & Hk & _ & Hat & _) | (_ & ->)];
    try assumption; try lia.
  - rewrite Hnone in Hat by assumption. discriminate.
  - cbn [bind fst node index].
    apply create_checked with (d := d); [assumption|].
    apply (probes_checked h (mkRange el 0 el 0)). apply Hprobes. lia.
Qed.

Lemma Page_text_missed_110 k :
  0 <= k <= nodeLength Page.host 3%nat ->
  textHit Page.host Page.arrays 110 5 (mkRange 2%nat 0 2%nat 0) 3%nat k = None.
Proof.
  change (nodeLength Page.host 3%nat) with 10. intros Hk.
  assert (k = 0 \/ k = 1 \/ k = 2 \/ k = 3 \/ k = 4 \/ k = 5 \/ k = 6
          \/ k = 7 \/ k = 8 \/ k = 9 \/ k = 10) as Hcases by lia.
  repeat (destruct Hcases as [-> | Hcases]; [reflexivity|]).
  subst k. reflexivity.
Qed.

Lemma fromPointIE_past_text_witness :
  fromPointIE Page.host Page.dom Page.arrays 20 110 5 Page.legacy
  = Return (mkRange 3%nat 10 3%nat 10).
Proof.
  eapply (fromPointIE_past_text Page.host Page.dom Page.arrays 20 110 5
            Page.legacy _ 2%nat 3%nat 0%nat);
    first [ exact Page_probes_text | exact Page_text_missed_110
          | reflexivity | discriminate | vm_compute; lia ].
Defined.

(** X11.  On an element without children the fallback does not scan:
    [fromPointIE] returns the collapsed range in the parent of the element,
    at the index of the element, for every call depth allowed. *)
Theorem fromPointIE_empty_element (h : Host) (D : Dom.Api) (A : Arrays.Api)
    (fuel : nat) (x y : Z) (doc : Document)
    (e : Z -> Z -> option Node) (el parent d : Node) :
  elementFromPoint doc = Some e -> e x y = Some el ->
  nodeType h el <> DOCUMENT_TYPE_NODE ->
  firstChild h el = None ->
  parentNode h el = Some parent ->
  ownerDocument h parent = Some d ->
  nodeType h parent <> DOCUMENT_TYPE_NODE ->
  0 <= Dom.nodeIndex D el <= nodeLength h parent ->
  Dom.nodeIndex D el < 2 ^ 32 ->
  fromPointIE h D A fuel x y doc
  = Return (mkRange parent (Dom.nodeIndex D el) parent (Dom.nodeIndex D el)).
Proof.
  intros He Hel Htype Hfirst Hparent Hdoc Hptype Hindex Hword.
  unfold fromPointIE, selectNodeContents. rewrite He, Hel, Hfirst, Hparent.
  destruct (nodeType h el =? DOCUMENT_TYPE_NODE) eqn:E; [lia|].
  cbn [bind node index].
  now apply create_accepts with (d := d).
Qed.

Lemma fromPointIE_empty_element_witness :
  fromPointIE Page.host Page.dom Page.arrays 0 60 25 Page.legacy
  = Return (mkRange 1%nat 1 1%nat 1).
Proof.
  eapply (fromPointIE_empty_element Page.host Page.dom Page.arrays 0 60 25
            Page.legacy _ 5%nat 1%nat 0%nat);
    first [ reflexivity | discriminate | vm_compute; split; discriminate ].
Defined.

(** ** [fromPosition] *)

(** X12.  What [fromPosition] does when the host finds nothing at a point
    with coordinates that are not negative depends on the primitive: a
    [null] from [caretRangeFromPoint] is returned as [null], a [null] from
    [caretPositionFromPoint] or from [elementFromPoint] is dereferenced and
    a [TypeError] is thrown. *)
Theorem fromPosition_nothing_found (h : Host) (D : Dom.Api) (A : Arrays.Api)
    (fuel : nat) (x y : Z) (doc : Document) :
  0 <= x -> 0 <= y ->
  (forall f, caretRangeFromPoint doc = Some f -> f x y = None ->
             fromPosition h D A fuel x y doc = Return None)
  /\ (forall g, caretRangeFromPoint doc = None ->
                caretPositionFromPoint doc = Some g -> g x y = None ->
                fromPosition h D A fuel x y doc = Throw TypeError)
  /\ (forall e, caretRangeFromPoint doc = None ->
                caretPositionFromPoint doc = None ->
                elementFromPoint doc = Some e -> e x y = None ->
                fromPosition h D A fuel x y doc = Throw TypeError).
Proof.
  intros Hx Hy.
  assert (Hcoords : (x <? 0) || (y <? 0) = false).
  { apply orb_false_iff. split; apply Z.ltb_ge; assumption. }
  unfold fromPosition, fromPoint, fromPointIE. rewrite Hcoords.
  repeat split.
  - intros f -> ->. reflexivity.
  - intros g -> -> ->. reflexivity.
  - intros e -> -> -> ->. reflexivity.
Qed.

Lemma fromPosition_nothing_found_witness :
  fromPosition Page.host Page.dom Page.arrays 20 32 70 Page.webkit = Return None
  /\ fromPosition Page.host Page.dom Page.arrays 20 32 70 Page.gecko
     = Throw TypeError
  /\ fromPosition Page.host Page.dom Page.arrays 20 32 70 Variants.clipped
     = Throw TypeError.
Proof.
  split; [|split].
  - eapply (proj1 (fromPosition_nothing_found Page.host Page.dom Page.arrays
                     20 32 70 Page.webkit _ _)); reflexivity.
  - eapply (proj1 (proj2 (fromPosition_nothing_found Page.host Page.dom
                            Page.arrays 20 32 70 Page.gecko _ _)));
      reflexivity.
  - eapply (proj2 (proj2 (fromPosition_nothing_found Page.host Page.dom
                            Page.arrays 20 32 70 Variants.clipped _ _)));
      reflexivity.
  Unshelve. all: lia.
Defined.

(** X13.  When the range found is not in an editable node, every range
    [fromPosition] returns is collapsed in the parent of the block that
    [parentBlock] finds, beside the block and never in it: at the index of
    the block, or one past it when [pointX > blockX], the comparison of
    lines 199-201 on the sums with the scroll offset of the body. *)
Theorem fromPosition_beside_block (h : Host) (D : Dom.Api) (A : Arrays.Api)
    (fuel : nat) (x y : Z) (doc : Document) (found r : Range) :
  fromPoint h D A fuel x y doc = Return (Some found) ->
  Dom.isEditableNode D (commonAncestorContainer h found) = false ->
  fromPosition h D A fuel x y doc = Return (Some r) ->
  exists block parent b,
    parentBlock h D (commonAncestorContainer h found) = Some block
    /\ parentNode h block = Some parent
    /\ body doc = Some b
    /\ (let pointX := x + scrollLeft h b in
        let past :=
          match offsetWidth h block with
          | Some width =>
              pointX >? fst (Dom.offset D block) + scrollLeft h b + width
          | None => false
          end in
        let o := toUint32 (Dom.nodeIndex D block + if past then 1 else 0) in
        r = mkRange parent o parent o).
Proof.
  intros Hpoint Hedit. unfold fromPosition. rewrite Hpoint. cbn [bind].
  rewrite Hedit.
  destruct (parentBlock h D _) as [block|]; [|discriminate].
  destruct (parentNode h block) as [parent|] eqn:Hparent; [|discriminate].
  destruct (body doc) as [b|]; [|discriminate].
  match goal with
  | |- bind ?c _ = _ -> _ => destruct c as [r1| |] eqn:Ecreate;
                             cbn [bind]; try discriminate
  end.
  intros [= <-]. exists block, parent, b.
  split; [reflexivity|]. split; [exact Hparent|]. split; [reflexivity|].
  cbn zeta. apply create_no_end in Ecreate. rewrite Ecreate. cbn [orZero].
  destruct (offsetWidth h block) as [w|].
  - destruct (x + scrollLeft h b >? fst (Dom.offset D block) + scrollLeft h b + w);
      [reflexivity|].
    rewrite Z.add_0_r. reflexivity.
  - rewrite Z.add_0_r. reflexivity.
Qed.

Lemma fromPosition_beside_block_witness :
  exists block parent b,
    parentBlock Page.host Page.dom
      (commonAncestorContainer Page.host (mkRange 4%nat 0 4%nat 0)) = Some block
    /\ parentNode Page.host block = Some parent
    /\ body Page.webkit = Some b
    /\ (let pointX := 125 + scrollLeft Page.host b in
        let past :=
          match offsetWidth Page.host block with
          | Some width =>
              pointX >? fst (Dom.offset Page.dom block) + scrollLeft Page.host b + width
          | None => false
          end in
        let o := toUint32 (Dom.nodeIndex Page.dom block + if past then 1 else 0) in
        mkRange 2%nat 2 2%nat 2 = mkRange parent o parent o).
Proof.
  apply (fromPosition_beside_block Page.host Page.dom Page.arrays 20 125 5
           Page.webkit (mkRange 4%nat 0 4%nat 0) (mkRange 2%nat 2 2%nat 2));
    reflexivity.
Defined.

(** X14.  Given that [Dom.upWhile] returns a node at which the predicate of
    [parentBlock] no longer holds, every range [fromPosition] returns is
    within editable content: its common ancestor is an editable node (the
    range found, passed on), or its container is editable (the parent of a
    block that is not). *)
Theorem fromPosition_in_editable (h : Host) (D : Dom.Api) (A : Arrays.Api)
    (fuel : nat) (x y : Z) (doc : Document) (r : Range) :
  upWhileStops h D ->
  fromPosition h D A fuel x y doc = Return (Some r) ->
  Dom.isEditableNode D (commonAncestorContainer h r) = true
  \/ Dom.isEditable D (startContainer r) = true.
Proof.
  intros Hstops. unfold fromPosition.
  destruct (fromPoint h D A fuel x y doc) as [[found|]| |];
    cbn [bind]; try discriminate.
  destruct (Dom.isEditableNode D (commonAncestorContainer h found)) eqn:Hedit.
  { intros [= <-]. left. exact Hedit. }
  destruct (parentBlock h D _) as [block|] eqn:Hblock; [|discriminate].
  destruct (parentNode h block) as [parent|] eqn:Hparent; [|discriminate].
  destruct (body doc) as [b|]; [|discriminate].
  match goal with
  | |- bind ?c _ = _ -> _ => destruct c as [r1| |] eqn:Ecreate;
                             cbn [bind]; try discriminate
  end.
  intros [= <-]. right.
  apply create_no_end in Ecreate. rewrite Ecreate. cbn [startContainer].
  unfold parentBlock in Hblock.
  match type of Hblock with
  | context [Dom.upWhile D ?start _] => pose proof (Hstops start) as Hstop
  end.
  change (fun node : Node =>
            match parentNode h node with
            | Some p => negb (Dom.isEditable D p)
            | None => false
            end) with (parentNotEditable h D) in Hblock.
  destruct (Dom.Nodes_DOCUMENT D =? _); [discriminate|].
  injection Hblock as Hblock. rewrite Hblock in Hstop.
  unfold parentNotEditable in Hstop. rewrite Hparent in Hstop.
  now apply negb_false_iff in Hstop.
Qed.

Lemma Page_upWhile_stops : upWhileStops Page.host Page.dom.
Proof.
  intros n. do 10 (destruct n as [|n]; [reflexivity|]). reflexivity.
Qed.

Lemma fromPosition_in_editable_witness :
  Dom.isEditableNode Page.dom
    (commonAncestorContainer Page.host (mkRange 2%nat 1 2%nat 1)) = true
  \/ Dom.isEditable Page.dom (startContainer (mkRange 2%nat 1 2%nat 1)) = true.
Proof.
  apply (fromPosition_in_editable Page.host Page.dom Page.arrays 20 110 5
           Page.webkit (mkRange 2%nat 1 2%nat 1) Page_upWhile_stops).
  reflexivity.
Defined.

Section TerminationFacts.
Variable h : Host.
Variable D : Dom.Api.
Variable A : Arrays.Api.
Variables x y : Z.
Variable doc : Document.

(** With the call depth that the scan needs, [fromPointIE] has its outcome,
    and a greater depth does not change it. *)
Lemma fromPointIE_depth bound :
  (forall e el first,
      elementFromPoint doc = Some e -> e x y = Some el ->
      firstChild h el = Some first -> siblingAt h bound first = None) ->
  exists enough,
    forall fuel, (enough <= fuel)%nat ->
      fromPointIE h D A fuel x y doc <> OutOfFuel
      /\ fromPointIE h D A fuel x y doc = fromPointIE h D A enough x y doc.
Proof.
  intros Hchain. unfold fromPointIE.
  destruct (elementFromPoint doc) as [e|] eqn:He;
    [|exists O; split; [discriminate|reflexivity]].
  destruct (e x y) as [el|] eqn:Hel;
    [|exists O; split; [discriminate|reflexivity]].
  destruct (selectNodeContents h _ el) as [r0| |] eqn:Eselect; cbn [bind];
    [ | exists O; split; [discriminate|reflexivity]
      | unfold selectNodeContents in Eselect;
        destruct (nodeType h el =? DOCUMENT_TYPE_NODE); discriminate ].
  destruct (firstChild h el) as [first|] eqn:Hfirst; cbn [node].
  - exists (callDepth h D bound first). intros fuel Hfuel.
    destruct (findOffset_depth h D A x y (collapse r0 true) bound first fuel
                (Hchain e el first eq_refl Hel Hfirst) Hfuel) as [Hout Hsame].
    rewrite Hsame in *.
    destruct (findOffset h D A (callDepth h D bound first) first _ x y)
      as [found| |]; cbn [bind];
      [ | split; [discriminate|reflexivity] | contradiction ].
    split; [|reflexivity].
    destruct (node (fst found)); [apply create_outcome | discriminate].
  - exists O. intros fuel _. cbn [bind]. split; [|reflexivity].
    destruct (parentNode h el); [apply create_outcome | discriminate].
Qed.
End TerminationFacts.

(** X15.  [fromPosition] terminates: in a document where the siblings of
    the first child of the element hit come to an end, it returns or throws
    within a call depth that the scan fixes, and allowing more changes
    nothing. *)
Theorem fromPosition_terminates (h : Host) (D : Dom.Api) (A : Arrays.Api)
    (x y : Z) (doc : Document) (bound : nat) :
  (forall e el first,
      elementFromPoint doc = Some e -> e x y = Some el ->
      firstChild h el = Some first -> siblingAt h bound first = None) ->
  exists enough out,
    out <> OutOfFuel
    /\ forall fuel, (enough <= fuel)%nat ->
                    fromPosition h D A fuel x y doc = out.
Proof.
  intros Hchain.
  destruct (fromPointIE_depth h D A x y doc bound Hchain) as [enough Hdepth].
  exists enough, (fromPosition h D A enough x y doc).
  assert (Hsame : forall fuel, (enough <= fuel)%nat ->
            fromPoint h D A fuel x y doc = fromPoint h D A enough x y doc
            /\ fromPoint h D A fuel x y doc <> OutOfFuel).
  { intros fuel Hfuel. unfold fromPoint.
    destruct ((x <? 0) || (y <? 0)); [split; [reflexivity|discriminate]|].
    destruct (caretRangeFromPoint doc); [split; [reflexivity|discriminate]|].
    destruct (caretPositionFromPoint doc) as [g|].
    { split; [reflexivity|]. destruct (g x y); [|discriminate].
      destruct (create h _ _ None None) as [r| |] eqn:Ecreate; cbn [bind];
        try discriminate.
      now apply create_outcome in Ecreate. }
    destruct (elementFromPoint doc); [|split; [reflexivity|discriminate]].
    destruct (Hdepth fuel Hfuel) as [_ ->].
    destruct (Hdepth enough (Nat.le_refl _)) as [Hout _].
    split; [reflexivity|].
    destruct (fromPointIE h D A enough x y doc); cbn [bind];
      first [discriminate | contradiction]. }
  assert (Hstable : forall fuel, (enough <= fuel)%nat ->
            fromPosition h D A fuel x y doc = fromPosition h D A enough x y doc).
  { intros fuel Hfuel. unfold fromPosition.
    now rewrite (proj1 (Hsame fuel Hfuel)). }
  split; [|exact Hstable].
  unfold fromPosition.
  destruct (Hsame enough (Nat.le_refl _)) as [_ Hout].
  destruct (fromPoint h D A enough x y doc) as [[found|]| |]; cbn [bind];
    try discriminate; [|contradiction].
  destruct (Dom.isEditableNode D _); [discriminate|].
  destruct (parentBlock h D _) as [block|]; [|discriminate].
  destruct (parentNode h block); [|discriminate].
  destruct (body doc); [|discriminate].
  destruct (create h _ _ None None) as [r| |] eqn:Ecreate; cbn [bind];
    try discriminate.
  now apply create_outcome in Ecreate.
Qed.

Lemma Page_sibling_chains_end e el first :
  elementFromPoint Page.legacy = Some e -> e 60 40 = Some el ->
  firstChild Page.host el = Some first -> siblingAt Page.host 2 first = None.
Proof.
  intros [= <-]. cbn. intros [= <-] [= <-]. reflexivity.
Qed.

Lemma fromPosition_terminates_witness :
  exists enough out,
    out <> OutOfFuel
    /\ forall fuel, (enough <= fuel)%nat ->
         fromPosition Page.host Page.dom Page.arrays fuel 60 40 Page.legacy = out.
Proof.
  exact (fromPosition_terminates Page.host Page.dom Page.arrays 60 40
           Page.legacy 2 Page_sibling_chains_end).
Defined.

(** X16.  The two native paths agree: when [caretPositionFromPoint] reports
    the node and offset at which [caretRangeFromPoint] returns a collapsed
    range, and that boundary point is one the host accepts, [fromPosition]
    has the same outcome with either primitive. *)
Theorem fromPosition_native_paths_agree (h : Host) (D : Dom.Api) (A : Arrays.Api)
    (fuel fuel' : nat) (x y : Z) (doc doc' : Document)
    (f : Z -> Z -> option Range) (g : Z -> Z -> option CaretPosition)
    (n d : Node) (o : Z) :
  caretRangeFromPoint doc = Some f -> f x y = Some (mkRange n o n o) ->
  caretRangeFromPoint doc' = None ->
  caretPositionFromPoint doc' = Some g -> g x y = Some (mkCaretPosition n o) ->
  body doc = body doc' ->
  ownerDocument h n = Some d ->
  nodeType h n <> DOCUMENT_TYPE_NODE ->
  0 <= o <= nodeLength h n -> o < 2 ^ 32 ->
  fromPosition h D A fuel x y doc = fromPosition h D A fuel' x y doc'.
Proof.
  intros Hf Hfxy Hnone Hg Hgxy Hbody Hdoc Htype Hlen Hword.
  unfold fromPosition, fromPoint.
  destruct ((x <? 0) || (y <? 0)); [reflexivity|].
  rewrite Hf, Hfxy, Hnone, Hg, Hgxy. cbn [offsetNode offset].
  rewrite (create_accepts h n o d) by assumption. cbn [bind].
  now rewrite Hbody.
Qed.

Lemma fromPosition_native_paths_agree_witness :
  fromPosition Page.host Page.dom Page.arrays 0 32 5 Page.webkit
  = fromPosition Page.host Page.dom Page.arrays 7 32 5 Page.gecko.
Proof.
  eapply (fromPosition_native_paths_agree Page.host Page.dom Page.arrays
            0 7 32 5 Page.webkit Page.gecko _ _ 3%nat 0%nat 3);
    first [ reflexivity | discriminate | vm_compute; split; discriminate ].
Defined.

(** X6.  Over the children of the element hit that are no text nodes, the
    fallback stops at the first one whose rectangle the point is in or
    above, or at the last one, and [fromPointIE] returns the collapsed range
    in its parent at its index: the position before that child, although
    the probe range ends after it, and also when the scan ran out of
    siblings without a match. *)
Theorem fromPointIE_at_sibling (h : Host) (D : Dom.Api) (A : Arrays.Api)
    (fuel : nat) (x y : Z) (doc : Document)
    (e : Z -> Z -> option Node) (el first m parent d : Node) (i : nat) :
  elementFromPoint doc = Some e -> e x y = Some el ->
  nodeType h el <> DOCUMENT_TYPE_NODE ->
  firstChild h el = Some first ->
  siblingAt h i first = Some m ->
  (forall j m', (j < i)%nat -> siblingAt h j first = Some m' ->
                Dom.isTextNode D m' = false
                /\ probesAfter h (mkRange el 0 el 0) m'
                /\ siblingHit h A x y (mkRange el 0 el 0) m' = None) ->
  Dom.isTextNode D m = false ->
  probesAfter h (mkRange el 0 el 0) m ->
  siblingHit h A x y (mkRange el 0 el 0) m <> None \/ nextSibling h m = None ->
  parentNode h m = Some parent ->
  ownerDocument h parent = Some d ->
  nodeType h parent <> DOCUMENT_TYPE_NODE ->
  0 <= Dom.nodeIndex D m <= nodeLength h parent ->
  Dom.nodeIndex D m < 2 ^ 32 ->
  (i < fuel)%nat ->
  fromPointIE h D A fuel x y doc
  = Return (mkRange parent (Dom.nodeIndex D m) parent (Dom.nodeIndex D m)).
Proof.
  intros He Hel Htype Hfirst Hat Hpassed Htext Hprobe Hstop Hparent Hdoc
    Hptype Hindex Hword Hfuel.
  rewrite (fromPointIE_scan h D A x y fuel doc e el first He Hel Htype Hfirst).
  replace fuel with (i + S (fuel - S i))%nat by lia.
  rewrite (findOffset_skip h D A x y _ i first m _ Hat Hpassed).
  rewrite findOffset_stop by assumption.
  cbn [bind fst]. unfold positionOf. cbn [node index]. rewrite Hparent.
  now apply create_accepts with (d := d).
Qed.

Lemma Page_images_passed_160 j m' :
  (j < 1)%nat -> siblingAt Page.host j 7%nat = Some m' ->
  Dom.isTextNode Page.dom m' = false
  /\ probesAfter Page.host (mkRange 6%nat 0 6%nat 0) m'
  /\ siblingHit Page.host Page.arrays 160 40 (mkRange 6%nat 0 6%nat 0) m' = None.
Proof.
  intros Hj. assert (j = O) as -> by lia. intros [= <-].
  repeat split; reflexivity.
Qed.

Lemma fromPointIE_at_sibling_witness :
  fromPointIE Page.host Page.dom Page.arrays 20 160 40 Page.legacy
  = Return (mkRange 6%nat 1 6%nat 1).
Proof.
  eapply (fromPointIE_at_sibling Page.host Page.dom Page.arrays 20 160 40
            Page.legacy _ 6%nat 7%nat 8%nat 6%nat 0%nat 1%nat);
    first [ exact Page_images_passed_160
          | reflexivity | discriminate | lia
          | right; reflexivity
          | vm_compute; split; discriminate
          | vm_compute; reflexivity ].
Defined.
